(** * Bookly: question generator, quiz session and score store

    A shallow embedding of [bookly.py] (the PDF quiz application) and the
    properties of its specification.

    Modelling conventions.
    - A Python [str] is a [string] whose characters are read as the code
      points U+0000..U+00FF; [len] is [String.length].
    - Python [int] is [Z]; the two counters of a quiz only ever start at 0
      and grow by one, they are [nat].
    - A raised exception is an explicit result ([None], or [inl e]); the
      [try]/[except] blocks of the source are the matches on these results.
    - The global state of the [random] module is an explicit generator that
      is threaded through the calls.
    - [self] is a record of the attributes and widget values the handlers
      read and write; a handler is a function from [App] to [App]. *)

From Stdlib Require Import ZArith Ascii String List Lia.
From stdpp Require Import base option list strings gmap pretty.

Local Open Scope nat_scope.

(* ================================================================== *)
(** * Python string operations *)
(* ================================================================== *)

Module PyStr.

Definition code (c : ascii) : N := N_of_ascii c.

(** [str.isspace] on one character, for code points below 256:
    TAB..CR, FS..US, SPACE, NEL and NBSP. *)
Definition is_space (c : ascii) : bool :=
  let n := code c in
  ((9 <=? n) && (n <=? 13) || (28 <=? n) && (n <=? 31)
   || (n =? 32) || (n =? 133) || (n =? 160))%N.

Definition is_empty (s : string) : bool :=
  match s with EmptyString => true | String _ _ => false end.

Fixpoint lstrip (s : string) : string :=
  match s with
  | EmptyString => EmptyString
  | String c r => if is_space c then lstrip r else s
  end.

Fixpoint rstrip (s : string) : string :=
  match s with
  | EmptyString => EmptyString
  | String c r =>
      let r' := rstrip r in
      if is_space c && is_empty r' then EmptyString else String c r'
  end.

(** [s.strip()] *)
Definition strip (s : string) : string := lstrip (rstrip s).

(** [s.split()]: the maximal runs of non-whitespace characters. The
    word being read is carried along in reverse. *)
Fixpoint split_go (s : string) (w : string) : list string :=
  match s with
  | EmptyString => if is_empty w then [] else [String.rev w]
  | String c r =>
      if is_space c
      then (if is_empty w then split_go r EmptyString
            else String.rev w :: split_go r EmptyString)
      else split_go r (String c w)
  end.

Definition split (s : string) : list string := split_go s EmptyString.

(** [s.split(sep)] for a one-character separator: every separator cuts,
    empty pieces are kept, the result is never empty. *)
Fixpoint split_on (sep : ascii) (s : string) : list string :=
  match s with
  | EmptyString => [EmptyString]
  | String c r =>
      if Ascii.eqb c sep then EmptyString :: split_on sep r
      else match split_on sep r with
           | [] => [String c EmptyString]
           | w :: ws => String c w :: ws
           end
  end.

(** [sub in s] *)
Fixpoint contains (sub s : string) : bool :=
  String.prefix sub s
  || match s with
     | EmptyString => false
     | String _ r => contains sub r
     end.

(** [s.replace(old, new)] for a non-empty [old]: scan from the left; at
    an occurrence emit [new] and skip the occurrence ([skip] counts the
    characters of it still to pass), otherwise copy one character. *)
Fixpoint replace_skip (old new s : string) (skip : nat) : string :=
  match s with
  | EmptyString => EmptyString
  | String c r =>
      match skip with
      | S k => replace_skip old new r k
      | O =>
          if String.prefix old s
          then new +:+ replace_skip old new r (String.length old - 1)
          else String c (replace_skip old new r 0)
      end
  end.

(** With an empty [old] Python puts [new] before every character and at
    the end. *)
Fixpoint interleave (new s : string) : string :=
  match s with
  | EmptyString => new
  | String c r => new +:+ String c (interleave new r)
  end.

Definition replace (old new s : string) : string :=
  if is_empty old then interleave new s else replace_skip old new s 0.

(** ** [int(s)] *)

(** The whitespace [int] strips is narrower than [strip]'s: the ASCII
    TAB..CR and SPACE, and among the other code points NEL and NBSP;
    FS..US are not accepted. *)
Definition is_int_space (c : ascii) : bool :=
  let n := code c in
  ((9 <=? n) && (n <=? 13) || (n =? 32) || (n =? 133) || (n =? 160))%N.

Fixpoint int_lstrip (s : string) : string :=
  match s with
  | EmptyString => EmptyString
  | String c r => if is_int_space c then int_lstrip r else s
  end.

Fixpoint int_rstrip (s : string) : string :=
  match s with
  | EmptyString => EmptyString
  | String c r =>
      let r' := int_rstrip r in
      if is_int_space c && is_empty r' then EmptyString else String c r'
  end.

Definition is_digit (c : ascii) : bool :=
  ((48 <=? code c) && (code c <=? 57))%N.

Definition digit_value (c : ascii) : Z := Z.of_N (code c) - 48.

(** Digits with single underscores between them. [after_digit] tells
    whether the previous character was a digit (an underscore is only
    legal then, and the literal may only end then); the result is the
    value and the number of digits read. *)
Fixpoint int_digits (s : string) (after_digit : bool) (acc : Z) (n : nat)
  : option (Z * nat) :=
  match s with
  | EmptyString => if after_digit then Some (acc, n) else None
  | String c r =>
      if is_digit c then int_digits r true (10 * acc + digit_value c) (S n)
      else if Ascii.eqb c "_" && after_digit then int_digits r false acc n
      else None
  end.

Section Int.
(** [sys.get_int_max_str_digits()]: 0 means no limit (and is what an
    interpreter without the limit behaves like). *)
Variable int_max_str_digits : nat.

Definition within_limit (n : nat) : bool :=
  (int_max_str_digits =? 0) || (n <=? int_max_str_digits).

(** [int(s)]; [None] is [ValueError]. *)
Definition int (s : string) : option Z :=
  let body := int_lstrip (int_rstrip s) in
  let '(sign, ds) :=
    match body with
    | String "-" r => ((-1)%Z, r)
    | String "+" r => (1%Z, r)
    | _ => (1%Z, body)
    end in
  match int_digits ds false 0 0 with
  | Some (v, n) => if within_limit n then Some (sign * v)%Z else None
  | None => None
  end.
End Int.

End PyStr.

(* ================================================================== *)
(** * The [random] module *)
(* ================================================================== *)

Module Random.

(** The generator: an unbounded tape of raw draws and a read position.
    Every behaviour of the real generator is the behaviour of some tape. *)
Record rng := Rng { tape : nat -> nat; cursor : nat }.

(** [_randbelow(n)]: a number in [0, n). *)
Definition randbelow (n : nat) (g : rng) : nat * rng :=
  (tape g (cursor g) `mod` n, Rng (tape g) (S (cursor g))).

Section Ops.
Context {A : Type}.

(** [random.choice(seq)]; [None] is the [IndexError] on an empty
    sequence (raised before anything is drawn). *)
Definition choice (seq : list A) (g : rng) : option A * rng :=
  match seq with
  | [] => (None, g)
  | _ => let '(i, g') := randbelow (length seq) g in (seq !! i, g')
  end.

(** The selection loop of [random.sample]: draw a position of the live
    part of the pool, take the item there and move the last live item
    into the vacancy. [pool] is the live part. *)
Fixpoint sample_go (pool : list A) (k : nat) (g : rng) : list A * rng :=
  match k with
  | O => ([], g)
  | S k' =>
      let n := length pool in
      let '(j, g1) := randbelow n g in
      match pool !! j, last pool with
      | Some x, Some y =>
          let '(res, g2) := sample_go (take (n - 1) (<[j:=y]> pool)) k' g1 in
          (x :: res, g2)
      | _, _ => ([], g1)
      end
  end.

(** The positions below [n] that are not in [selected]. *)
Definition free_positions (n : nat) (selected : list nat) : list nat :=
  filter (fun j => j ∉ selected) (seq 0 n).

(** The other selection loop of [random.sample], for a population too
    large to copy: positions are drawn until one turns up that was not
    selected before. The outcome of that inner loop is a position among
    those still free; the model lets one draw pick it. *)
Fixpoint sample_by_set (population : list A) (selected : list nat) (k : nat)
  (g : rng) : list A * rng :=
  match k with
  | O => ([], g)
  | S k' =>
      let free := free_positions (length population) selected in
      let '(i, g1) := randbelow (length free) g in
      match free !! i with
      | Some j =>
          match population !! j with
          | Some x =>
              let '(res, g2) :=
                sample_by_set population (j :: selected) k' g1 in
              (x :: res, g2)
          | None => ([], g1)
          end
      | None => ([], g1)
      end
  end.

(** [setsize]: 21, and for [k > 5] more by [4 ** ceil(log(3 * k, 4))]. *)
Definition setsize (k : nat) : nat :=
  21 + (if 5 <? k then 4 ^ ((Nat.log2_up (3 * k) + 1) / 2) else 0).

(** [random.sample(population, k)]; [None] is the [ValueError] for a
    sample larger than the population. *)
Definition sample (population : list A) (k : nat) (g : rng)
  : option (list A) * rng :=
  let n := length population in
  if n <? k then (None, g)
  else
    let '(res, g') :=
      if n <=? setsize k then sample_go population k g
      else sample_by_set population [] k g in
    (Some res, g').

(** [x[i], x[j] = x[j], x[i]] *)
Definition swap (x : list A) (i j : nat) : list A :=
  match x !! i, x !! j with
  | Some a, Some b => <[j:=a]> (<[i:=b]> x)
  | _, _ => x
  end.

(** The loop of [random.shuffle]: [i] runs from [len(x) - 1] down to 1
    and [x[i]] is exchanged with a position drawn below [i + 1]. *)
Fixpoint shuffle_go (i : nat) (x : list A) (g : rng) : list A * rng :=
  match i with
  | O => (x, g)
  | S i' =>
      let '(j, g1) := randbelow (S i) g in
      shuffle_go i' (swap x i j) g1
  end.

Definition shuffle (x : list A) (g : rng) : list A * rng :=
  shuffle_go (length x - 1) x g.
End Ops.

End Random.

(* ================================================================== *)
(** * The language model's view of a text *)
(* ================================================================== *)

(** What the generator reads of a spaCy [Doc]: the entity spans with their
    labels, the tokens with their part of speech and lexical flags, and the
    texts of the sentences, all in document order. *)
Record Ent := { ent_text : string; label_ : string }.

Record Token :=
  { tok_text : string; pos_ : string; is_stop : bool; is_punct : bool }.

Record Doc := { ents : list Ent; tokens : list Token; sents : list string }.

(** The dictionary [generate_quiz_question] returns. *)
Record Question :=
  { question : string; choices : list string; answer : string }.

(** The exceptions the model distinguishes. *)
Inductive exn :=
| NlpError            (* [get_nlp_model()] or [nlp(text)] raised *)
| IndexError
| ValueError.

(* ================================================================== *)
(** * Question generator *)
(* ================================================================== *)

(** [list(set(xs))]: the distinct items, in an order the set decides. *)
Definition list_set (xs : list string) : list string :=
  elements (list_to_set xs : gset string).

Definition entity_labels : list string :=
  ["PERSON"; "GPE"; "ORG"; "PRODUCT"; "LOC"; "MONEY"; "DATE"; "TIME"].

(** Lines 79-80. *)
Definition named_entities (doc : Doc) : list string :=
  let entities := filter (fun ent => label_ ent ∈ entity_labels) (ents doc) in
  list_set
    ((fun ent => PyStr.strip (ent_text ent)) <$>
     filter (fun ent => 1 < String.length (PyStr.strip (ent_text ent))) entities).

(** Lines 84-85. *)
Definition important_nouns (doc : Doc) : list string :=
  list_set
    (tok_text <$>
     filter (fun token => pos_ token = "NOUN" ∧ is_stop token = false
                          ∧ 3 < String.length (tok_text token))
            (tokens doc)).

(** Lines 89-90. *)
Definition significant_words (doc : Doc) : list string :=
  list_set
    (tok_text <$>
     filter (fun token => is_stop token = false ∧ is_punct token = false
                          ∧ 2 < String.length (tok_text token))
            (tokens doc)).

(** Lines 79-94: the value of [unique_entities] at line 96, or [None] when
    the function returns at line 94. *)
Definition candidate_pool (doc : Doc) : option (list string) :=
  let unique_entities := named_entities doc in
  let unique_entities :=
    if length unique_entities <? 4 then important_nouns doc
    else unique_entities in
  let unique_entities :=
    if length unique_entities <? 4 then significant_words doc
    else unique_entities in
  if length unique_entities <? 4 then None else Some unique_entities.

Definition blank : string := "_____".

(** Lines 97-103: the loop over [doc.sents]. *)
Fixpoint find_sentence (correct_answer : string) (sentences : list string)
  : string :=
  match sentences with
  | [] => EmptyString
  | sent :: rest =>
      if PyStr.contains correct_answer sent
         && (5 <? length (PyStr.split sent))
      then PyStr.replace correct_answer blank sent
      else find_sentence correct_answer rest
  end.

(** Lines 97-107. *)
Definition question_sentence (correct_answer : string) (doc : Doc) : string :=
  let question_sentence := find_sentence correct_answer (sents doc) in
  if PyStr.is_empty question_sentence
  then "What is the missing word: _____?"
  else question_sentence.

Section Generator.
(** [get_nlp_model()(text)]; [None] when loading or running the model
    raises. *)
Variable nlp : string -> option Doc.

(** The body of the [try] block, lines 75-114. *)
Definition generate_body (text : string) (g : Random.rng)
  : (exn + option Question) * Random.rng :=
  match nlp text with
  | None => (inl NlpError, g)
  | Some doc =>
      match candidate_pool doc with
      | None => (inr None, g)
      | Some unique_entities =>
          match Random.choice unique_entities g with
          | (None, g1) => (inl IndexError, g1)
          | (Some correct_answer, g1) =>
              let question_sentence := question_sentence correct_answer doc in
              match Random.sample
                      (filter (fun e => e ≠ correct_answer) unique_entities)
                      3 g1 with
              | (None, g2) => (inl ValueError, g2)
              | (Some distractors, g2) =>
                  let '(choices, g3) :=
                    Random.shuffle (distractors ++ [correct_answer]) g2 in
                  (inr (Some {| question := question_sentence;
                                choices := choices;
                                answer := correct_answer |}), g3)
              end
          end
      end
  end.

(** [generate_quiz_question(text)] *)
Definition generate_quiz_question (text : string) (g : Random.rng)
  : option Question * Random.rng :=
  if PyStr.is_empty (PyStr.strip text) then (None, g)
  else match generate_body text g with
       | (inr result, g') => (result, g')
       | (inl _, g') => (None, g')
       end.
End Generator.

(* ================================================================== *)
(** * The application: documents, files, widgets and [self] *)
(* ================================================================== *)

(** An opened PDF: the text layer of its pages, in page order. *)
Record Document := { page_texts : list string }.

Definition page_count (d : Document) : nat := length (page_texts d).

(** Modelled from the library's documentation: [pdf_doc[i]] of PyMuPDF,
    then [get_text]; the library is not part of the source. An index at or
    beyond the page count is an error ([None]); a negative index counts
    from the end, as often as needed. A document without pages is not met
    by the source (a PDF has at least one page): that every index is an
    error there is an assumption of this model, and no theorem below that
    speaks of a failure relies on it. *)
Definition getitem (d : Document) (i : Z) : option string :=
  let n := Z.of_nat (page_count d) in
  if (n <=? i)%Z then None
  else if (i <? 0)%Z
       then (if (n =? 0)%Z then None else page_texts d !! Z.to_nat (i `mod` n))
       else page_texts d !! Z.to_nat i.

(** Lines 28-34. [inl msg] is [RuntimeError(msg)]; [msg] is the prefix of
    line 34 followed by the text of the caught exception. That text is the
    library's: the wording given here stands for it. *)
Definition extract_text_from_pdf (pdf_doc : Document) (start_page end_page : Z)
  : string + string :=
  match mapM (fun p => getitem pdf_doc (p - 1))
             (seqZ start_page (end_page + 1 - start_page)) with
  | Some texts => inr (String.concat EmptyString texts)
  | None => inl "Failed to extract text from PDF: page not in document"
  end.

(** The file [quiz_scores.json]. *)
Inductive File :=
| NoFile
| JsonScores (records : list string)   (* a JSON array of strings *)
| Malformed.                           (* not JSON *)

(** A [threading.Timer] set to call [generate_and_display_mcq]. *)
Inductive Timer := Scheduled | Fired.

Inductive View := MainView | QuizView.

Record Dialog := { title : string; content : string; open : bool }.

(** The widgets [build_quiz_view] creates. *)
Record QuizWidgets := MkQuizWidgets {
  quiz_score_label : string;
  quiz_highest_score_label : string;
  quiz_question_label : string;
  quiz_choices_group_value : option string;
  quiz_choices_group_controls : list string;
  quiz_feedback_label : string;
  quiz_feedback_label_color : option string;
  quiz_submit_button_disabled : bool
}.

(** [self], with the two pieces of the outside world the handlers touch:
    the score file (and whether it can be opened for writing) and the
    state of the [random] module. The [quiz_*] attributes exist from the
    first [start_quiz_clicked] on; before that they hold the values given
    in [initial]. *)
Record App := MkApp {
  pdf_doc : option Document;
  extracted_text_content : string;
  scores : list string;
  max_questions : Z;
  quiz_timer : option Timer;
  quiz_score : nat;
  quiz_questions_asked : nat;
  quiz_correct_answer : string;
  start_page_entry : string;
  end_page_entry : string;
  num_questions_entry : string;
  start_quiz_button_disabled : bool;
  output_text_area : string;
  output_text_area_disabled : bool;
  highest_score_label : string;
  score_list_view : list string;
  quiz : QuizWidgets;
  view : View;
  dialog : option Dialog;
  scores_file : File;
  scores_file_writable : bool;
  random : Random.rng
}.

(** Field updates. *)

Definition with_quiz_score_label (v : string) (w : QuizWidgets)
  : QuizWidgets :=
  MkQuizWidgets v (quiz_highest_score_label w) (quiz_question_label w)
    (quiz_choices_group_value w) (quiz_choices_group_controls w)
    (quiz_feedback_label w) (quiz_feedback_label_color w)
    (quiz_submit_button_disabled w).

Definition with_quiz_highest_score_label (v : string) (w : QuizWidgets)
  : QuizWidgets :=
  MkQuizWidgets (quiz_score_label w) v (quiz_question_label w)
    (quiz_choices_group_value w) (quiz_choices_group_controls w)
    (quiz_feedback_label w) (quiz_feedback_label_color w)
    (quiz_submit_button_disabled w).

Definition with_quiz_question_label (v : string) (w : QuizWidgets)
  : QuizWidgets :=
  MkQuizWidgets (quiz_score_label w) (quiz_highest_score_label w) v
    (quiz_choices_group_value w) (quiz_choices_group_controls w)
    (quiz_feedback_label w) (quiz_feedback_label_color w)
    (quiz_submit_button_disabled w).

Definition with_quiz_choices_group_value (v : option string) (w : QuizWidgets)
  : QuizWidgets :=
  MkQuizWidgets (quiz_score_label w) (quiz_highest_score_label w)
    (quiz_question_label w) v (quiz_choices_group_controls w)
    (quiz_feedback_label w) (quiz_feedback_label_color w)
    (quiz_submit_button_disabled w).

Definition with_quiz_choices_group_controls (v : list string) (w : QuizWidgets)
  : QuizWidgets :=
  MkQuizWidgets (quiz_score_label w) (quiz_highest_score_label w)
    (quiz_question_label w) (quiz_choices_group_value w) v
    (quiz_feedback_label w) (quiz_feedback_label_color w)
    (quiz_submit_button_disabled w).

Definition with_quiz_feedback_label (v : string) (w : QuizWidgets)
  : QuizWidgets :=
  MkQuizWidgets (quiz_score_label w) (quiz_highest_score_label w)
    (quiz_question_label w) (quiz_choices_group_value w)
    (quiz_choices_group_controls w) v (quiz_feedback_label_color w)
    (quiz_submit_button_disabled w).

Definition with_quiz_feedback_label_color (v : option string) (w : QuizWidgets)
  : QuizWidgets :=
  MkQuizWidgets (quiz_score_label w) (quiz_highest_score_label w)
    (quiz_question_label w) (quiz_choices_group_value w)
    (quiz_choices_group_controls w) (quiz_feedback_label w) v
    (quiz_submit_button_disabled w).

Definition with_quiz_submit_button_disabled (v : bool) (w : QuizWidgets)
  : QuizWidgets :=
  MkQuizWidgets (quiz_score_label w) (quiz_highest_score_label w)
    (quiz_question_label w) (quiz_choices_group_value w)
    (quiz_choices_group_controls w) (quiz_feedback_label w)
    (quiz_feedback_label_color w) v.

Definition with_extracted_text_content (v : string) (self : App) : App :=
  MkApp (pdf_doc self) v (scores self) (max_questions self)
    (quiz_timer self) (quiz_score self) (quiz_questions_asked self)
    (quiz_correct_answer self) (start_page_entry self) (end_page_entry self)
    (num_questions_entry self) (start_quiz_button_disabled self)
    (output_text_area self) (output_text_area_disabled self)
    (highest_score_label self) (score_list_view self) (quiz self)
    (view self) (dialog self) (scores_file self) (scores_file_writable self)
    (random self).

Definition with_scores (v : list string) (self : App) : App :=
  MkApp (pdf_doc self) (extracted_text_content self) v (max_questions self)
    (quiz_timer self) (quiz_score self) (quiz_questions_asked self)
    (quiz_correct_answer self) (start_page_entry self) (end_page_entry self)
    (num_questions_entry self) (start_quiz_button_disabled self)
    (output_text_area self) (output_text_area_disabled self)
    (highest_score_label self) (score_list_view self) (quiz self)
    (view self) (dialog self) (scores_file self) (scores_file_writable self)
    (random self).

Definition with_max_questions (v : Z) (self : App) : App :=
  MkApp (pdf_doc self) (extracted_text_content self) (scores self) v
    (quiz_timer self) (quiz_score self) (quiz_questions_asked self)
    (quiz_correct_answer self) (start_page_entry self) (end_page_entry self)
    (num_questions_entry self) (start_quiz_button_disabled self)
    (output_text_area self) (output_text_area_disabled self)
    (highest_score_label self) (score_list_view self) (quiz self)
    (view self) (dialog self) (scores_file self) (scores_file_writable self)
    (random self).

Definition with_quiz_timer (v : option Timer) (self : App) : App :=
  MkApp (pdf_doc self) (extracted_text_content self) (scores self)
    (max_questions self) v (quiz_score self) (quiz_questions_asked self)
    (quiz_correct_answer self) (start_page_entry self) (end_page_entry self)
    (num_questions_entry self) (start_quiz_button_disabled self)
    (output_text_area self) (output_text_area_disabled self)
    (highest_score_label self) (score_list_view self) (quiz self)
    (view self) (dialog self) (scores_file self) (scores_file_writable self)
    (random self).

Definition with_quiz_score (v : nat) (self : App) : App :=
  MkApp (pdf_doc self) (extracted_text_content self) (scores self)
    (max_questions self) (quiz_timer self) v (quiz_questions_asked self)
    (quiz_correct_answer self) (start_page_entry self) (end_page_entry self)
    (num_questions_entry self) (start_quiz_button_disabled self)
    (output_text_area self) (output_text_area_disabled self)
    (highest_score_label self) (score_list_view self) (quiz self)
    (view self) (dialog self) (scores_file self) (scores_file_writable self)
    (random self).

Definition with_quiz_questions_asked (v : nat) (self : App) : App :=
  MkApp (pdf_doc self) (extracted_text_content self) (scores self)
    (max_questions self) (quiz_timer self) (quiz_score self) v
    (quiz_correct_answer self) (start_page_entry self) (end_page_entry self)
    (num_questions_entry self) (start_quiz_button_disabled self)
    (output_text_area self) (output_text_area_disabled self)
    (highest_score_label self) (score_list_view self) (quiz self)
    (view self) (dialog self) (scores_file self) (scores_file_writable self)
    (random self).

Definition with_quiz_correct_answer (v : string) (self : App) : App :=
  MkApp (pdf_doc self) (extracted_text_content self) (scores self)
    (max_questions self) (quiz_timer self) (quiz_score self)
    (quiz_questions_asked self) v (start_page_entry self)
    (end_page_entry self) (num_questions_entry self)
    (start_quiz_button_disabled self) (output_text_area self)
    (output_text_area_disabled self) (highest_score_label self)
    (score_list_view self) (quiz self) (view self) (dialog self)
    (scores_file self) (scores_file_writable self) (random self).

Definition with_start_quiz_button_disabled (v : bool) (self : App) : App :=
  MkApp (pdf_doc self) (extracted_text_content self) (scores self)
    (max_questions self) (quiz_timer self) (quiz_score self)
    (quiz_questions_asked self) (quiz_correct_answer self)
    (start_page_entry self) (end_page_entry self) (num_questions_entry self)
    v (output_text_area self) (output_text_area_disabled self)
    (highest_score_label self) (score_list_view self) (quiz self)
    (view self) (dialog self) (scores_file self) (scores_file_writable self)
    (random self).

Definition with_output_text_area (v : string) (self : App) : App :=
  MkApp (pdf_doc self) (extracted_text_content self) (scores self)
    (max_questions self) (quiz_timer self) (quiz_score self)
    (quiz_questions_asked self) (quiz_correct_answer self)
    (start_page_entry self) (end_page_entry self) (num_questions_entry self)
    (start_quiz_button_disabled self) v (output_text_area_disabled self)
    (highest_score_label self) (score_list_view self) (quiz self)
    (view self) (dialog self) (scores_file self) (scores_file_writable self)
    (random self).

Definition with_output_text_area_disabled (v : bool) (self : App) : App :=
  MkApp (pdf_doc self) (extracted_text_content self) (scores self)
    (max_questions self) (quiz_timer self) (quiz_score self)
    (quiz_questions_asked self) (quiz_correct_answer self)
    (start_page_entry self) (end_page_entry self) (num_questions_entry self)
    (start_quiz_button_disabled self) (output_text_area self) v
    (highest_score_label self) (score_list_view self) (quiz self)
    (view self) (dialog self) (scores_file self) (scores_file_writable self)
    (random self).

Definition with_highest_score_label (v : string) (self : App) : App :=
  MkApp (pdf_doc self) (extracted_text_content self) (scores self)
    (max_questions self) (quiz_timer self) (quiz_score self)
    (quiz_questions_asked self) (quiz_correct_answer self)
    (start_page_entry self) (end_page_entry self) (num_questions_entry self)
    (start_quiz_button_disabled self) (output_text_area self)
    (output_text_area_disabled self) v (score_list_view self) (quiz self)
    (view self) (dialog self) (scores_file self) (scores_file_writable self)
    (random self).

Definition with_score_list_view (v : list string) (self : App) : App :=
  MkApp (pdf_doc self) (extracted_text_content self) (scores self)
    (max_questions self) (quiz_timer self) (quiz_score self)
    (quiz_questions_asked self) (quiz_correct_answer self)
    (start_page_entry self) (end_page_entry self) (num_questions_entry self)
    (start_quiz_button_disabled self) (output_text_area self)
    (output_text_area_disabled self) (highest_score_label self) v
    (quiz self) (view self) (dialog self) (scores_file self)
    (scores_file_writable self) (random self).

Definition with_quiz (v : QuizWidgets) (self : App) : App :=
  MkApp (pdf_doc self) (extracted_text_content self) (scores self)
    (max_questions self) (quiz_timer self) (quiz_score self)
    (quiz_questions_asked self) (quiz_correct_answer self)
    (start_page_entry self) (end_page_entry self) (num_questions_entry self)
    (start_quiz_button_disabled self) (output_text_area self)
    (output_text_area_disabled self) (highest_score_label self)
    (score_list_view self) v (view self) (dialog self) (scores_file self)
    (scores_file_writable self) (random self).

Definition with_view (v : View) (self : App) : App :=
  MkApp (pdf_doc self) (extracted_text_content self) (scores self)
    (max_questions self) (quiz_timer self) (quiz_score self)
    (quiz_questions_asked self) (quiz_correct_answer self)
    (start_page_entry self) (end_page_entry self) (num_questions_entry self)
    (start_quiz_button_disabled self) (output_text_area self)
    (output_text_area_disabled self) (highest_score_label self)
    (score_list_view self) (quiz self) v (dialog self) (scores_file self)
    (scores_file_writable self) (random self).

Definition with_dialog (v : option Dialog) (self : App) : App :=
  MkApp (pdf_doc self) (extracted_text_content self) (scores self)
    (max_questions self) (quiz_timer self) (quiz_score self)
    (quiz_questions_asked self) (quiz_correct_answer self)
    (start_page_entry self) (end_page_entry self) (num_questions_entry self)
    (start_quiz_button_disabled self) (output_text_area self)
    (output_text_area_disabled self) (highest_score_label self)
    (score_list_view self) (quiz self) (view self) v (scores_file self)
    (scores_file_writable self) (random self).

Definition with_scores_file (v : File) (self : App) : App :=
  MkApp (pdf_doc self) (extracted_text_content self) (scores self)
    (max_questions self) (quiz_timer self) (quiz_score self)
    (quiz_questions_asked self) (quiz_correct_answer self)
    (start_page_entry self) (end_page_entry self) (num_questions_entry self)
    (start_quiz_button_disabled self) (output_text_area self)
    (output_text_area_disabled self) (highest_score_label self)
    (score_list_view self) (quiz self) (view self) (dialog self) v
    (scores_file_writable self) (random self).

Definition with_random (v : Random.rng) (self : App) : App :=
  MkApp (pdf_doc self) (extracted_text_content self) (scores self)
    (max_questions self) (quiz_timer self) (quiz_score self)
    (quiz_questions_asked self) (quiz_correct_answer self)
    (start_page_entry self) (end_page_entry self) (num_questions_entry self)
    (start_quiz_button_disabled self) (output_text_area self)
    (output_text_area_disabled self) (highest_score_label self)
    (score_list_view self) (quiz self) (view self) (dialog self)
    (scores_file self) (scores_file_writable self) v.

Definition with_pdf_doc (v : option Document) (self : App) : App :=
  MkApp v (extracted_text_content self) (scores self) (max_questions self)
    (quiz_timer self) (quiz_score self) (quiz_questions_asked self)
    (quiz_correct_answer self) (start_page_entry self) (end_page_entry self)
    (num_questions_entry self) (start_quiz_button_disabled self)
    (output_text_area self) (output_text_area_disabled self)
    (highest_score_label self) (score_list_view self) (quiz self)
    (view self) (dialog self) (scores_file self) (scores_file_writable self)
    (random self).

Definition with_start_page_entry (v : string) (self : App) : App :=
  MkApp (pdf_doc self) (extracted_text_content self) (scores self)
    (max_questions self) (quiz_timer self) (quiz_score self)
    (quiz_questions_asked self) (quiz_correct_answer self) v
    (end_page_entry self) (num_questions_entry self)
    (start_quiz_button_disabled self) (output_text_area self)
    (output_text_area_disabled self) (highest_score_label self)
    (score_list_view self) (quiz self) (view self) (dialog self)
    (scores_file self) (scores_file_writable self) (random self).

Definition with_end_page_entry (v : string) (self : App) : App :=
  MkApp (pdf_doc self) (extracted_text_content self) (scores self)
    (max_questions self) (quiz_timer self) (quiz_score self)
    (quiz_questions_asked self) (quiz_correct_answer self)
    (start_page_entry self) v (num_questions_entry self)
    (start_quiz_button_disabled self) (output_text_area self)
    (output_text_area_disabled self) (highest_score_label self)
    (score_list_view self) (quiz self) (view self) (dialog self)
    (scores_file self) (scores_file_writable self) (random self).

Definition with_num_questions_entry (v : string) (self : App) : App :=
  MkApp (pdf_doc self) (extracted_text_content self) (scores self)
    (max_questions self) (quiz_timer self) (quiz_score self)
    (quiz_questions_asked self) (quiz_correct_answer self)
    (start_page_entry self) (end_page_entry self) v
    (start_quiz_button_disabled self) (output_text_area self)
    (output_text_area_disabled self) (highest_score_label self)
    (score_list_view self) (quiz self) (view self) (dialog self)
    (scores_file self) (scores_file_writable self) (random self).


(** The state when the application window opens, before [load_scores]. *)
Definition initial (file : File) (writable : bool) (g : Random.rng) : App :=
  {| pdf_doc := None; extracted_text_content := EmptyString; scores := [];
     max_questions := 0; quiz_timer := None;
     quiz_score := 0; quiz_questions_asked := 0;
     quiz_correct_answer := EmptyString;
     start_page_entry := EmptyString; end_page_entry := EmptyString;
     num_questions_entry := "5"; start_quiz_button_disabled := true;
     output_text_area := EmptyString; output_text_area_disabled := false;
     highest_score_label := "Highest Score: N/A"; score_list_view := [];
     quiz := {| quiz_score_label := EmptyString;
                quiz_highest_score_label := EmptyString;
                quiz_question_label := EmptyString;
                quiz_choices_group_value := None;
                quiz_choices_group_controls := [];
                quiz_feedback_label := EmptyString;
                quiz_feedback_label_color := None;
                quiz_submit_button_disabled := false |};
     view := MainView; dialog := None;
     scores_file := file; scores_file_writable := writable; random := g |}.

(** [max(items, key=key)]: the first item whose key is not exceeded by a
    later one. [None] when a key raises, or on an empty sequence. *)
Fixpoint max_go {A} (key : A -> option Z) (best : A) (best_key : Z)
  (items : list A) : option A :=
  match items with
  | [] => Some best
  | x :: rest =>
      match key x with
      | None => None
      | Some k =>
          if (best_key <? k)%Z then max_go key x k rest
          else max_go key best best_key rest
      end
  end.

Definition max_by {A} (key : A -> option Z) (items : list A) : option A :=
  match items with
  | [] => None
  | x :: rest =>
      match key x with
      | None => None
      | Some k => max_go key x k rest
      end
  end.

(** [s.rfind(sub)] *)
Fixpoint rfind_go (sub s : string) (i : nat) : option nat :=
  match s with
  | EmptyString => if String.prefix sub s then Some i else None
  | String _ r =>
      match rfind_go sub r (S i) with
      | Some k => Some k
      | None => if String.prefix sub s then Some i else None
      end
  end.

Definition rfind (sub s : string) : Z :=
  match rfind_go sub s 0 with Some k => Z.of_nat k | None => (-1)%Z end.

Definition nl : string := String "010" EmptyString.

(** Lines 318-328: the question text as shown. *)
Definition display_text (question_text : string) : string :=
  let question_text :=
    if 200 <? String.length question_text then
      let last_blank := rfind blank question_text in
      if (150 <? last_blank)%Z
      then String.substring 0 (Z.to_nat (last_blank + 5)) question_text +:+ "..."
      else String.substring 0 200 question_text +:+ "..."
    else question_text in
  PyStr.replace blank "[_____]" question_text.

(* ================================================================== *)
(** * The handlers of [PDFQuizApp] *)
(* ================================================================== *)

Section Handlers.
Variable nlp : string -> option Doc.
Variable int_max_str_digits : nat.

Definition show_error_dialog (message title : string) (self : App) : App :=
  with_dialog
    (Some {| title := title; content := message; open := true |}) self.

Definition build_main_view (self : App) : App := with_view MainView self.

(** ** Score management *)

(** [int(s.split('/')[0].strip())] *)
Definition score_key (s : string) : option Z :=
  match PyStr.split_on "/" s with
  | [] => None
  | first :: _ => PyStr.int int_max_str_digits (PyStr.strip first)
  end.

(** Lines 379-386. *)
Definition get_highest_score (self : App) : string :=
  match scores self with
  | [] => "N/A"
  | _ => match max_by score_key (scores self) with
         | Some s => s
         | None => "N/A"
         end
  end.

(** Lines 409-414; an item of the list view is given by the record it
    shows. *)
Definition update_score_display (self : App) : App :=
  let self :=
    with_highest_score_label
      ("Highest Score: " +:+ get_highest_score self) self in
  with_score_list_view
    (reverse (drop (length (scores self) - 10) (scores self))) self.

(** Lines 388-399. *)
Definition load_scores (self : App) : App :=
  match scores_file self with
  | JsonScores records => update_score_display (with_scores records self)
  | NoFile => update_score_display (with_scores [] self)
  | Malformed => with_scores [] self
  end.

(** Lines 401-407: the whole list is written over the file; when the
    file cannot be opened the error is printed and nothing is written. *)
Definition save_scores (self : App) : App :=
  if scores_file_writable self
  then with_scores_file (JsonScores (scores self)) self
  else self.

(** Lines 416-422. *)
Definition handle_quiz_end (final_score : option string) (self : App) : App :=
  let self :=
    match final_score with
    | Some s =>
        if PyStr.is_empty s then self
        else
          let self := with_scores (scores self ++ [s]) self in
          let self := save_scores self in
          update_score_display self
    | None => self
    end in
  build_main_view self.

(** ** Quiz *)

(** Lines 365-373. *)
Definition end_quiz_clicked (self : App) : App :=
  let self :=
    match quiz_timer self with
    | Some _ => with_quiz_timer None self
    | None => self
    end in
  let score_str :=
    if 0 <? quiz_questions_asked self
    then Some (pretty (quiz_score self) +:+ " / "
               +:+ pretty (quiz_questions_asked self))
    else None in
  handle_quiz_end score_str self.

(** Lines 478-536. *)
Definition build_quiz_view (self : App) : App :=
  let self := with_view QuizView self in
  with_quiz
    {| quiz_score_label := "Score: 0";
       quiz_highest_score_label :=
         "High Score to Beat: " +:+ get_highest_score self;
       quiz_question_label := "Loading...";
       quiz_choices_group_value := None;
       quiz_choices_group_controls := [];
       quiz_feedback_label := EmptyString;
       quiz_feedback_label_color := None;
       quiz_submit_button_disabled := false |} self.

(** Lines 301-363. *)
Definition generate_and_display_mcq (self : App) : App :=
  if (max_questions self <=? Z.of_nat (quiz_questions_asked self))%Z then
    let message :=
      "Quiz complete! You reached your goal of "
      +:+ pretty (max_questions self) +:+ " questions." +:+ nl +:+ nl
      +:+ "Final Score: " +:+ pretty (quiz_score self) +:+ " / "
      +:+ pretty (max_questions self) in
    let self := show_error_dialog message "Quiz Finished!" self in
    end_quiz_clicked self
  else
    let self :=
      with_quiz
        (with_quiz_submit_button_disabled false
           (with_quiz_feedback_label EmptyString (quiz self))) self in
    let self :=
      with_quiz
        (with_quiz_score_label
           ("Score: " +:+ pretty (quiz_score self) +:+ " | Question: "
            +:+ pretty (quiz_questions_asked self + 1) +:+ " of "
            +:+ pretty (max_questions self)) (quiz self)) self in
    let '(question_data, g) :=
      generate_quiz_question nlp (extracted_text_content self) (random self) in
    let self := with_random g self in
    match question_data with
    | Some question_data =>
        let question_text := display_text (question question_data) in
        let self :=
          with_quiz
            (with_quiz_choices_group_controls (choices question_data)
               (with_quiz_question_label question_text (quiz self))) self in
        with_quiz_correct_answer (answer question_data) self
    | None =>
        let message :=
          "The quiz has ended after " +:+ pretty (quiz_questions_asked self)
          +:+ " questions because the app could not find enough unique content to generate more."
          +:+ nl +:+ nl
          +:+ "Final Score: " +:+ pretty (quiz_score self) +:+ " / "
          +:+ pretty (quiz_questions_asked self) in
        let self := show_error_dialog message "Quiz Content Exhausted" self in
        end_quiz_clicked self
    end.

(** Lines 263-279. *)
Definition start_quiz_clicked (self : App) : App :=
  if String.length (PyStr.strip (extracted_text_content self)) <? 200 then
    show_error_dialog "Please extract more text for a good quiz." "Error" self
  else
    match
      match PyStr.int int_max_str_digits (num_questions_entry self) with
      | Some num_q => if (num_q <=? 0)%Z then None else Some num_q
      | None => None
      end
    with
    | None =>
        show_error_dialog
          "Please enter a valid, positive number for the quiz length."
          "Error" self
    | Some num_q =>
        let self := with_max_questions num_q self in
        let self := with_quiz_questions_asked 0 (with_quiz_score 0 self) in
        let self := build_quiz_view self in
        generate_and_display_mcq self
    end.

(** Lines 281-299. A timer the attribute still holds is cancelled before
    the new one takes its place. *)
Definition check_quiz_answer (self : App) : App :=
  let self :=
    with_quiz (with_quiz_submit_button_disabled true (quiz self)) self in
  let self :=
    with_quiz_questions_asked (quiz_questions_asked self + 1) self in
  let self :=
    if decide (quiz_choices_group_value (quiz self)
               = Some (quiz_correct_answer self))
    then
      let self := with_quiz_score (quiz_score self + 1) self in
      with_quiz
        (with_quiz_feedback_label_color (Some "green")
           (with_quiz_feedback_label "Correct!" (quiz self))) self
    else
      with_quiz
        (with_quiz_feedback_label_color (Some "red")
           (with_quiz_feedback_label
              ("Answer: " +:+ quiz_correct_answer self) (quiz self))) self in
  with_quiz_timer (Some Scheduled) self.

(** ** Text extraction *)

(** Lines 647-672. *)
Definition extract_text_clicked (self : App) : App :=
  match pdf_doc self with
  | None => self
  | Some doc =>
      match PyStr.int int_max_str_digits (start_page_entry self),
            PyStr.int int_max_str_digits (end_page_entry self) with
      | Some start_page, Some end_page =>
          if negb ((1 <=? start_page)%Z && (start_page <=? end_page)%Z
                   && (end_page <=? Z.of_nat (page_count doc))%Z)
          then
            show_error_dialog
              ("Page range must be 1-" +:+ pretty (page_count doc) +:+ ".")
              "Error" self
          else
            let self :=
              with_output_text_area_disabled true
                (with_output_text_area
                   ("Extracting pages " +:+ pretty start_page +:+ "-"
                    +:+ pretty end_page +:+ "...") self) in
            match extract_text_from_pdf doc start_page end_page with
            | inr full_text =>
                let self :=
                  with_output_text_area_disabled false
                    (with_output_text_area full_text self) in
                let self := with_extracted_text_content full_text self in
                let is_text_present :=
                  negb (PyStr.is_empty (PyStr.strip full_text)) in
                with_start_quiz_button_disabled (negb is_text_present) self
            | inl ex =>
                show_error_dialog ("Extraction failed: " +:+ ex) "Error" self
            end
      | _, _ =>
          show_error_dialog "Please enter valid page numbers." "Error" self
      end
  end.

(** ** Events of the presentation shell *)

Inductive Event :=
| SelectChoice (value : string)   (* a radio button of the group is picked *)
| ClickSubmit
| ClickEndQuiz
| ClickStartQuiz
| ClickExtract
| TimerElapsed.

(** Modelled from the spec: the presentation shell, which is the toolkit
    and not part of the source. It hands an event to the handler the
    source registers for it ([on_click], the timer's callback). That a
    control which is off the page or disabled delivers nothing, and that a
    timer calls back only while it is scheduled, is the toolkit's doing
    ("guarded by disabling input until the next question is ready"); no
    handler of the source tests for it. *)
Definition dispatch (e : Event) (self : App) : App :=
  match e, view self with
  | SelectChoice value, QuizView =>
      with_quiz (with_quiz_choices_group_value (Some value) (quiz self)) self
  | ClickSubmit, QuizView =>
      if quiz_submit_button_disabled (quiz self) then self
      else check_quiz_answer self
  | ClickEndQuiz, QuizView => end_quiz_clicked self
  | ClickStartQuiz, MainView =>
      if start_quiz_button_disabled self then self
      else start_quiz_clicked self
  | ClickExtract, MainView => extract_text_clicked self
  | TimerElapsed, _ =>
      match quiz_timer self with
      | Some Scheduled =>
          generate_and_display_mcq (with_quiz_timer (Some Fired) self)
      | _ => self
      end
  | _, _ => self
  end.

End Handlers.

(* ================================================================== *)
(** * Specification-side notions *)
(* ================================================================== *)

(** No occurrence of [old] starts inside [u] when [u] is followed by
    [tail]. *)
Fixpoint no_occurrence_starts (old u tail : string) : Prop :=
  match u with
  | EmptyString => True
  | String c u' =>
      String.prefix old (String c (u' +:+ tail)) = false
      ∧ no_occurrence_starts old u' tail
  end.

(** [replaced_all old new s t]: [t] is [s] with the occurrences of [old]
    replaced by [new], found from the left, each search resuming behind the
    occurrence just replaced. *)
Inductive replaced_all (old new : string) : string -> string -> Prop :=
| replaced_none s :
    PyStr.contains old s = false -> replaced_all old new s s
| replaced_next u v v' :
    no_occurrence_starts old u (old +:+ v) ->
    replaced_all old new v v' ->
    replaced_all old new (u +:+ old +:+ v) (u +:+ new +:+ v').

(** [pool] lists, each once, the strings with property [P]. *)
Definition unique_of (P : string -> Prop) (pool : list string) : Prop :=
  NoDup pool ∧ ∀ x, x ∈ pool <-> P x.

(** The three kinds of candidate. *)
Definition entity_candidate (doc : Doc) (x : string) : Prop :=
  ∃ ent, ent ∈ ents doc ∧ label_ ent ∈ entity_labels
         ∧ 1 < String.length (PyStr.strip (ent_text ent))
         ∧ x = PyStr.strip (ent_text ent).

Definition noun_candidate (doc : Doc) (x : string) : Prop :=
  ∃ token, token ∈ tokens doc ∧ pos_ token = "NOUN" ∧ is_stop token = false
           ∧ 3 < String.length (tok_text token) ∧ x = tok_text token.

Definition word_candidate (doc : Doc) (x : string) : Prop :=
  ∃ token, token ∈ tokens doc ∧ is_stop token = false
           ∧ is_punct token = false
           ∧ 2 < String.length (tok_text token) ∧ x = tok_text token.

(** [accepted_tier doc pool]: [pool] is the pool of the first tier, in the
    order entities, nouns, words, that has four candidates or more. *)
Inductive accepted_tier (doc : Doc) (pool : list string) : Prop :=
| accept_entities :
    unique_of (entity_candidate doc) pool -> 4 ≤ length pool ->
    accepted_tier doc pool
| accept_nouns es :
    unique_of (entity_candidate doc) es -> length es < 4 ->
    unique_of (noun_candidate doc) pool -> 4 ≤ length pool ->
    accepted_tier doc pool
| accept_words es ns :
    unique_of (entity_candidate doc) es -> length es < 4 ->
    unique_of (noun_candidate doc) ns -> length ns < 4 ->
    unique_of (word_candidate doc) pool -> 4 ≤ length pool ->
    accepted_tier doc pool.

(** The second tier as the specification words it: the noun tokens that
    are, besides, not punctuation. *)
Definition stated_important_nouns (doc : Doc) : list string :=
  list_set
    (tok_text <$>
     filter (fun token => pos_ token = "NOUN" ∧ is_stop token = false
                          ∧ is_punct token = false
                          ∧ 3 < String.length (tok_text token))
            (tokens doc)).

Definition stated_candidate_pool (doc : Doc) : option (list string) :=
  let pool := named_entities doc in
  let pool := if length pool <? 4 then stated_important_nouns doc else pool in
  let pool := if length pool <? 4 then significant_words doc else pool in
  if length pool <? 4 then None else Some pool.

(** A sentence the prompt can be built from. *)
Definition qualifies (correct_answer sent : string) : Prop :=
  PyStr.contains correct_answer sent = true ∧ 5 < length (PyStr.split sent).

(** ** Sample data *)

Definition mk_ent (text label : string) : Ent :=
  {| ent_text := text; label_ := label |}.

Definition mk_token (text pos : string) (stop punct : bool) : Token :=
  {| tok_text := text; pos_ := pos; is_stop := stop; is_punct := punct |}.

(** A text about Marie Curie as a model would read it. *)
Definition curie_doc : Doc :=
  {| ents := [mk_ent "Marie Curie" "PERSON"; mk_ent " Paris " "GPE";
              mk_ent "Paris" "GPE"; mk_ent "Sorbonne" "ORG";
              mk_ent "two" "CARDINAL"; mk_ent "1903" "DATE"];
     tokens := [];
     sents := ["Marie Curie moved to Paris and studied in Paris at the Sorbonne.";
               "She won in 1903."] |}.

(** A worksheet line whose gaps the tagger took for nouns. *)
Definition gaps_doc : Doc :=
  {| ents := [];
     tokens := [mk_token "_____" "NOUN" false true;
                mk_token "-----" "NOUN" false true;
                mk_token "*****" "NOUN" false true;
                mk_token "....." "NOUN" false true;
                mk_token "is" "AUX" true false];
     sents := ["_____ ----- ***** is ....."] |}.

Definition nlp_of (doc : Doc) : string -> option Doc := fun _ => Some doc.

Definition rng0 : Random.rng := Random.Rng (fun i => i * 7 + 3) 0.

Definition curie_text : string :=
  "Marie Curie moved to Paris and studied in Paris at the Sorbonne. She won in 1903.".

Definition curie_question : Question :=
  {| question :=
       "Marie Curie moved to _____ and studied in _____ at the Sorbonne.";
     choices := ["Marie Curie"; "1903"; "Sorbonne"; "Paris"];
     answer := "Paris" |}.

Definition rng7 : Random.rng := Random.Rng (fun i => i * 7 + 3) 7.

Definition gaps_text : string := "_____ ----- ***** is .....".

Definition gaps_question : Question :=
  {| question := "What is the missing word: _____?";
     choices := ["-----"; "....."; "_____"; "*****"];
     answer := "*****" |}.

(** Only whitespace. *)
Fixpoint all_space (s : string) : bool :=
  match s with
  | EmptyString => true
  | String c r => PyStr.is_space c && all_space r
  end.

(** [r] is the first item of [items] with the largest key. *)
Definition first_max {A} (key : A -> option Z) (items : list A) (r : A) : Prop :=
  ∃ before after k,
    items = before ++ r :: after
    ∧ key r = Some k
    ∧ (∀ x, x ∈ before -> ∃ k', key x = Some k' ∧ (k' < k)%Z)
    ∧ (∀ x, x ∈ after -> ∃ k', key x = Some k' ∧ (k' <= k)%Z).

(** How a quiz comes to its end. *)
Inductive FinishReason := GoalReached | ContentExhausted | UserEnded.

Inductive finishes (nlp : string -> option Doc) (int_max_str_digits : nat)
  (self : App) : FinishReason -> App -> Prop :=
| finish_goal :
    (max_questions self <= Z.of_nat (quiz_questions_asked self))%Z ->
    finishes nlp int_max_str_digits self GoalReached
      (generate_and_display_mcq nlp int_max_str_digits self)
| finish_exhausted :
    (Z.of_nat (quiz_questions_asked self) < max_questions self)%Z ->
    (generate_quiz_question nlp (extracted_text_content self) (random self)).1
    = None ->
    finishes nlp int_max_str_digits self ContentExhausted
      (generate_and_display_mcq nlp int_max_str_digits self)
| finish_user :
    finishes nlp int_max_str_digits self UserEnded
      (end_quiz_clicked int_max_str_digits self).

(** The record a quiz leaves: [f"{score} / {asked}"]. *)
Definition score_record (self : App) : string :=
  pretty (quiz_score self) +:+ " / " +:+ pretty (quiz_questions_asked self).

(** The two dialogs [start_quiz_clicked] can answer with. *)
Definition insufficient_text : Dialog :=
  {| title := "Error";
     content := "Please extract more text for a good quiz.";
     open := true |}.

Definition invalid_quiz_length : Dialog :=
  {| title := "Error";
     content := "Please enter a valid, positive number for the quiz length.";
     open := true |}.

(** The dialog [extract_text_clicked] answers a bad range with. *)
Definition invalid_range (doc : Document) : Dialog :=
  {| title := "Error";
     content := "Page range must be 1-" +:+ pretty (page_count doc) +:+ ".";
     open := true |}.

(** The texts of the pages [start_page] to [end_page], joined. *)
Definition pages_text (doc : Document) (start_page end_page : Z) : string :=
  String.concat EmptyString
    (take (Z.to_nat (end_page - start_page + 1))
          (drop (Z.to_nat (start_page - 1)) (page_texts doc))).

(** ** Sample states *)

(** The limit of current interpreters. *)
Definition default_max_str_digits : nat := 4300.

Definition long_text : string :=
  curie_text +:+ " " +:+ curie_text +:+ " " +:+ curie_text.

Definition two_pages : Document := {| page_texts := ["alpha "; "beta"] |}.

(** Text extracted, nothing started yet. *)
Definition ready : App :=
  with_start_quiz_button_disabled false
    (with_extracted_text_content long_text (initial NoFile true rng0)).

(** A quiz of five questions with its first question on display. *)
Definition pending : App :=
  start_quiz_clicked (nlp_of curie_doc) default_max_str_digits ready.

(** The same with the correct answer picked. *)
Definition picked : App :=
  with_quiz (with_quiz_choices_group_value (Some "Paris") (quiz pending))
    pending.

(** The same after a correct answer was picked and submitted. *)
Definition answered : App :=
  check_quiz_answer
    (with_quiz (with_quiz_choices_group_value (Some "Paris") (quiz pending))
       pending).


(** A two-page document loaded and a page range typed in. *)
Definition entries (start_page end_page : string) (self : App) : App :=
  with_end_page_entry end_page
    (with_start_page_entry start_page (with_pdf_doc (Some two_pages) self)).

(** A text with too little in it. *)
Definition sparse_text : string := "Hi there.".

Definition sparse_doc : Doc :=
  {| ents := [];
     tokens := [mk_token "Hi" "INTJ" false false;
                mk_token "there" "ADV" true false;
                mk_token "." "PUNCT" false true];
     sents := ["Hi there."] |}.

(** A quiz going on over the sparse text. *)
Definition starving : App := with_extracted_text_content sparse_text pending.

(* ================================================================== *)
(** * Further notions used below *)
(* ================================================================== *)

(** Only decimal digits. *)
Fixpoint all_digits (s : string) : bool :=
  match s with
  | EmptyString => true
  | String c r => PyStr.is_digit c && all_digits r
  end.

(** The number a string of digits writes, continuing from [acc]. *)
Fixpoint decimal_value (s : string) (acc : Z) : Z :=
  match s with
  | EmptyString => acc
  | String c r => decimal_value r (10 * acc + PyStr.digit_value c)
  end.

(** No character of [s] is [c]. *)
Fixpoint free_of (c : ascii) (s : string) : bool :=
  match s with
  | EmptyString => true
  | String d r => negb (Ascii.eqb d c) && free_of c r
  end.

(** No whitespace in [s]. *)
Fixpoint no_space (s : string) : bool :=
  match s with
  | EmptyString => true
  | String c r => negb (PyStr.is_space c) && no_space r
  end.

(** One round of a quiz as the user lives it: pick a choice, submit,
    wait for the timer. *)
Definition answer_round (nlp : string -> option Doc) (limit : nat)
  (value : string) (self : App) : App :=
  dispatch nlp limit TimerElapsed
    (dispatch nlp limit ClickSubmit
       (dispatch nlp limit (SelectChoice value) self)).

(** Every stored record can be read by [get_highest_score]. *)
Definition readable (limit : nat) (records : list string) : Prop :=
  ∀ r, r ∈ records -> is_Some (score_key limit r).

(** A question longer than the question label takes. *)
Definition long_question : string := "_____ is where this is set. " +:+ long_text.

(** The pool of the text about Marie Curie. *)
Definition curie_pool : list string :=
  ["Sorbonne"; "Marie Curie"; "1903"; "Paris"].

(** Five answers to a quiz of five questions. *)
Definition five_answers : list string :=
  ["Paris"; "1903"; "Sorbonne"; "Paris"; "Marie Curie"].

(* ================================================================== *)
(** * Facts about the string operations *)
(* ================================================================== *)

Module PyStrFacts.
Import PyStr.

Lemma is_empty_true s : is_empty s = true <-> s = EmptyString.
Proof. destruct s; simpl; split; congruence. Qed.

Lemma is_empty_false s : is_empty s = false <-> s ≠ EmptyString.
Proof. destruct s; simpl; split; congruence. Qed.

Lemma app_cons c (a b : string) : String c a +:+ b = String c (a +:+ b).
Proof. reflexivity. Qed.

Lemma app_assoc (a b c : string) : (a +:+ b) +:+ c = a +:+ b +:+ c.
Proof. induction a as [|x a IH]; [done |]. rewrite !app_cons. by f_equal. Qed.

Lemma app_empty_r (a : string) : a +:+ EmptyString = a.
Proof. induction a as [|x a IH]; [done |]. rewrite app_cons. by f_equal. Qed.

Lemma prefix_split (a s : string) :
  String.prefix a s = true -> ∃ v, s = a +:+ v.
Proof.
  revert s. induction a as [|x a IH]; intros s.
  - intros _. by exists s.
  - destruct s as [|y s]; [done |]. cbn [String.prefix].
    destruct (ascii_dec x y) as [->|]; [|done].
    intros [v ->]%IH. by exists v.
Qed.

Lemma prefix_app (a b : string) : String.prefix a (a +:+ b) = true.
Proof.
  induction a as [|x a IH]; [by destruct b |].
  rewrite app_cons. cbn [String.prefix].
  destruct (ascii_dec x x); [exact IH | congruence].
Qed.

(** *** Whitespace-only texts strip to nothing *)

Lemma rstrip_all_space s : all_space s = true -> rstrip s = EmptyString.
Proof.
  induction s as [|c r IH]; simpl; [done |].
  intros [Hc Hr]%andb_prop. rewrite (IH Hr), Hc. done.
Qed.

Lemma strip_all_space s : all_space s = true -> strip s = EmptyString.
Proof. intros H. unfold strip. by rewrite rstrip_all_space. Qed.

(** *** [replace] replaces every occurrence *)

Lemma replace_skip_none old new s :
  contains old s = false -> replace_skip old new s 0 = s.
Proof.
  induction s as [|c r IH]; [done |].
  cbn [contains]. intros [Hp Hr]%orb_false_elim.
  cbn [replace_skip]. rewrite Hp. by rewrite (IH Hr).
Qed.

Lemma replace_skip_pass old new o rest :
  replace_skip old new (o +:+ rest) (String.length o)
  = replace_skip old new rest 0.
Proof. induction o as [|c o IH]; [by destruct rest | exact IH]. Qed.

Lemma replace_skip_here old new v :
  old ≠ EmptyString ->
  replace_skip old new (old +:+ v) 0 = new +:+ replace_skip old new v 0.
Proof.
  destruct old as [|a o]; [done | intros _].
  change (String a o +:+ v) with (String a (o +:+ v)).
  cbn [replace_skip].
  change (String a (o +:+ v)) with (String a o +:+ v).
  rewrite prefix_app. cbn [String.length]. rewrite Nat.sub_1_r. cbn [Nat.pred].
  by rewrite replace_skip_pass.
Qed.

Lemma replace_skip_before old new u tail :
  no_occurrence_starts old u tail ->
  replace_skip old new (u +:+ tail) 0 = u +:+ replace_skip old new tail 0.
Proof.
  induction u as [|c u IH]; [done |].
  intros [Hp Hu]. change (String c u +:+ tail) with (String c (u +:+ tail)).
  cbn [replace_skip]. rewrite Hp. by rewrite (IH Hu).
Qed.

Lemma replace_none old new s :
  contains old s = false -> replace old new s = s.
Proof.
  intros H. unfold replace. destruct old as [|a o]; cbn [is_empty].
  - destruct s; discriminate H.
  - by apply replace_skip_none.
Qed.

Lemma replace_next old new u v :
  old ≠ EmptyString ->
  no_occurrence_starts old u (old +:+ v) ->
  replace old new (u +:+ old +:+ v) = u +:+ new +:+ replace old new v.
Proof.
  intros Hne Hu. unfold replace.
  destruct (is_empty old) eqn:He; [by apply is_empty_true in He |].
  rewrite (replace_skip_before _ _ _ _ Hu). by rewrite replace_skip_here.
Qed.

(** Where the first occurrence is, when there is one. *)
Lemma contains_first old s :
  contains old s = true ->
  ∃ u v, s = u +:+ old +:+ v ∧ no_occurrence_starts old u (old +:+ v).
Proof.
  induction s as [|c r IH]; cbn [contains].
  - rewrite orb_false_r. destruct old; [|done]. intros _.
    by exists EmptyString, EmptyString.
  - destruct (String.prefix old (String c r)) eqn:Hp.
    + intros _. apply prefix_split in Hp as [v Hv].
      exists EmptyString, v. by split.
    + cbn [orb]. intros (u & v & -> & Hu)%IH.
      exists (String c u), v. split; [done |]. by split.
Qed.

Lemma length_app (a b : string) :
  String.length (a +:+ b) = String.length a + String.length b.
Proof.
  induction a as [|x a IH]; [done |].
  rewrite app_cons. cbn [String.length]. by rewrite IH.
Qed.

(** [replace] computes the replacement of all occurrences. *)
Lemma replace_replaced_all old new s :
  old ≠ EmptyString -> replaced_all old new s (replace old new s).
Proof.
  intros Hne.
  induction s as [s IH] using (induction_ltof1 _ String.length).
  destruct (contains old s) eqn:Hc.
  - apply contains_first in Hc as (u & v & -> & Hu).
    rewrite replace_next by done.
    apply replaced_next; [done |]. apply IH. unfold ltof.
    rewrite !length_app.
    destruct old; [done |]. cbn [String.length]. lia.
  - rewrite replace_none by done. by apply replaced_none.
Qed.
End PyStrFacts.

(* ================================================================== *)
(** * Facts about the random operations *)
(* ================================================================== *)

Module RandomFacts.
Import Random.

Lemma randbelow_lt n g : n ≠ 0 -> (randbelow n g).1 < n.
Proof. intros Hn. simpl. by apply Nat.mod_upper_bound. Qed.

Section Ops.
Context {A : Type}.
Implicit Types (l pool x population : list A).

Lemma choice_elem (seq : list A) g a g' :
  choice seq g = (Some a, g') -> a ∈ seq.
Proof.
  unfold choice. destruct seq as [|b seq]; [done |].
  intros [= H _]. by eapply list_elem_of_lookup_2.
Qed.

Lemma choice_nonempty (seq : list A) g :
  seq ≠ [] -> ∃ a, (choice seq g).1 = Some a.
Proof.
  intros Hne. unfold choice. destruct seq as [|b seq]; [done |].
  cbn [randbelow fst]. apply lookup_lt_is_Some_2.
  apply Nat.mod_upper_bound. done.
Qed.

(** Overwriting one position exchanges one item. *)
Lemma insert_exchange l i a b :
  l !! i = Some a -> a :: <[i:=b]> l ≡ₚ b :: l.
Proof.
  revert i. induction l as [|c l IH]; intros [|i] H; simplify_eq/=.
  - apply perm_swap.
  - rewrite (perm_swap c a), (IH _ H). apply perm_swap.
Qed.

Lemma last_insert l j y :
  last l = Some y -> last (<[j:=y]> l) = Some y.
Proof.
  rewrite !last_lookup, length_insert. intros H.
  destruct (decide (j = pred (length l))) as [->|Hne].
  - apply list_lookup_insert_eq. apply lookup_lt_Some in H. lia.
  - by rewrite list_lookup_insert_ne.
Qed.

Lemma take_last l y :
  last l = Some y -> l = take (length l - 1) l ++ [y].
Proof.
  intros [l' ->]%last_Some. rewrite length_app. simpl.
  replace (length l' + 1 - 1) with (length l') by lia.
  by rewrite take_app_length.
Qed.

(** One step of the selection loop takes one item out of the pool. *)
Lemma vacancy pool j a y :
  pool !! j = Some a -> last pool = Some y ->
  a :: take (length pool - 1) (<[j:=y]> pool) ≡ₚ pool.
Proof.
  intros Hj Hy.
  pose proof (take_last _ _ (last_insert _ j _ Hy)) as Hsplit.
  rewrite length_insert in Hsplit.
  apply (Permutation_app_inv_r [y]).
  change ((a :: take (length pool - 1) (<[j:=y]> pool)) ++ [y])
    with (a :: (take (length pool - 1) (<[j:=y]> pool) ++ [y])).
  rewrite <- Hsplit, (insert_exchange _ _ _ _ Hj).
  by rewrite Permutation_cons_append.
Qed.

Lemma sample_go_spec k pool g :
  k ≤ length pool ->
  length (sample_go pool k g).1 = k
  ∧ ∃ rest, (sample_go pool k g).1 ++ rest ≡ₚ pool.
Proof.
  revert pool g. induction k as [|k IH]; intros pool g Hk.
  - split; [done |]. by exists pool.
  - cbn [sample_go].
    destruct (randbelow (length pool) g) as [j g1] eqn:Hr.
    assert (j < length pool) as Hj.
    { pose proof (randbelow_lt (length pool) g) as H.
      rewrite Hr in H. apply H. lia. }
    destruct (lookup_lt_is_Some_2 pool j Hj) as [a Ha]. rewrite Ha.
    destruct (last pool) as [y|] eqn:Hy; last first.
    { apply last_None in Hy. subst. simpl in Hk. lia. }
    pose proof (vacancy _ _ _ _ Ha Hy) as Hperm.
    set (pool' := take (length pool - 1) (<[j:=y]> pool)) in *.
    assert (k ≤ length pool') as Hk'.
    { apply Permutation_length in Hperm. simpl in Hperm. lia. }
    destruct (IH pool' g1 Hk') as [Hlen [rest Hrest]].
    destruct (sample_go pool' k g1) as [res g2]. simpl in *.
    split; [by rewrite Hlen |].
    exists rest. by rewrite Hrest.
Qed.

Lemma filter_all {B} (P : B -> Prop) `{!∀ b, Decision (P b)} (items : list B) :
  Forall P items -> filter P items = items.
Proof.
  induction 1 as [|a l Ha _ IH]; [done |].
  by rewrite filter_cons_True, IH.
Qed.

(** Taking one item out of a list without repetitions. *)
Lemma filter_out_perm (l : list nat) j :
  NoDup l -> j ∈ l -> l ≡ₚ j :: filter (fun j' => j' ≠ j) l.
Proof.
  induction l as [|a l IH]; intros Hnd Hin.
  { by apply elem_of_nil in Hin. }
  apply NoDup_cons in Hnd as [Ha Hnd].
  apply elem_of_cons in Hin as [->|Hin].
  - rewrite filter_cons_False by (intros H; by apply H).
    rewrite filter_all; [done |].
    apply Forall_forall. intros x Hx ->. done.
  - assert (a ≠ j) as Hne by (intros ->; done).
    rewrite filter_cons_True by done.
    rewrite (IH Hnd Hin) at 1. apply perm_swap.
Qed.

Lemma free_positions_cons n selected j :
  free_positions n (j :: selected)
  = filter (fun j' => j' ≠ j) (free_positions n selected).
Proof.
  unfold free_positions. rewrite list_filter_filter.
  apply list_filter_iff. intros x. by rewrite not_elem_of_cons.
Qed.

Lemma free_positions_NoDup n selected : NoDup (free_positions n selected).
Proof. apply NoDup_filter, NoDup_seq. Qed.

Lemma items_at_seq pre l :
  omap (fun j => (pre ++ l) !! j) (seq (length pre) (length l)) = l.
Proof.
  revert pre. induction l as [|a l IH]; intros pre; [done |].
  cbn [length seq omap list_omap]. rewrite list_lookup_middle by done.
  f_equal. specialize (IH (pre ++ [a])).
  rewrite <- app_assoc, length_app in IH. cbn in IH.
  by rewrite Nat.add_1_r in IH.
Qed.

Lemma free_positions_nil n : free_positions n [] = seq 0 n.
Proof.
  unfold free_positions. apply filter_all.
  apply Forall_forall. intros j _ Hj. by apply elem_of_nil in Hj.
Qed.

Lemma sample_by_set_spec population k selected g :
  k ≤ length (free_positions (length population) selected) ->
  length (sample_by_set population selected k g).1 = k
  ∧ ∃ rest,
      (sample_by_set population selected k g).1 ++ rest
      ≡ₚ omap (fun j => population !! j)
           (free_positions (length population) selected).
Proof.
  revert selected g. induction k as [|k IH]; intros selected g Hk.
  { split; [done |]. eexists. cbn [sample_by_set fst app]. reflexivity. }
  cbn [sample_by_set].
  set (free := free_positions (length population) selected) in *.
  destruct (randbelow (length free) g) as [i g1] eqn:Hr.
  assert (i < length free) as Hi.
  { pose proof (randbelow_lt (length free) g) as H.
    rewrite Hr in H. apply H. lia. }
  destruct (lookup_lt_is_Some_2 free i Hi) as [j Hj]. rewrite Hj.
  assert (j ∈ free) as Hin by by eapply list_elem_of_lookup_2.
  assert (j < length population) as Hlt.
  { apply list_elem_of_filter in Hin as [_ Hin].
    apply elem_of_seq in Hin. lia. }
  destruct (lookup_lt_is_Some_2 population j Hlt) as [a Ha]. rewrite Ha.
  assert (free ≡ₚ j :: free_positions (length population) (j :: selected))
    as Hperm.
  { rewrite free_positions_cons.
    apply filter_out_perm; [apply free_positions_NoDup | done]. }
  assert (k ≤ length (free_positions (length population) (j :: selected)))
    as Hk'.
  { apply Permutation_length in Hperm. cbn in Hperm. lia. }
  destruct (IH (j :: selected) g1 Hk') as [Hlen [rest Hrest]].
  destruct (sample_by_set population (j :: selected) k g1) as [res g2].
  cbn [fst] in *. split; [cbn; by rewrite Hlen |].
  exists rest. rewrite Hperm. cbn [omap list_omap]. rewrite Ha.
  cbn [app]. by rewrite Hrest.
Qed.

(** [sample] returns [k] items taken from pairwise different positions
    of the population: together with the items left over they make up
    the population again. *)
Lemma sample_spec population k g res g' :
  sample population k g = (Some res, g') ->
  length res = k ∧ ∃ rest, res ++ rest ≡ₚ population.
Proof.
  unfold sample. cbv zeta.
  destruct (length population <? k) eqn:Hlt; [done |].
  apply Nat.ltb_ge in Hlt.
  destruct (length population <=? setsize k).
  - pose proof (sample_go_spec k population g Hlt) as H.
    destruct (sample_go population k g) as [r g2]. by intros [= <- _].
  - pose proof (sample_by_set_spec population k [] g) as H.
    rewrite free_positions_nil, length_seq in H.
    pose proof (items_at_seq [] population) as Hall.
    cbn [app length] in Hall. rewrite Hall in H.
    destruct (sample_by_set population [] k g) as [r g2].
    intros [= <- _]. by apply H.
Qed.

Lemma sample_succeeds population k g :
  k ≤ length population -> ∃ res, (sample population k g).1 = Some res.
Proof.
  intros Hk. unfold sample. cbv zeta.
  destruct (length population <? k) eqn:Hlt.
  { apply Nat.ltb_lt in Hlt. lia. }
  destruct (if length population <=? setsize k
            then sample_go population k g
            else sample_by_set population [] k g) as [r g2].
  by exists r.
Qed.

Lemma swap_perm x i j : swap x i j ≡ₚ x.
Proof.
  unfold swap.
  destruct (x !! i) as [a|] eqn:Hi; [|done].
  destruct (x !! j) as [b|] eqn:Hj; [|done].
  destruct (decide (i = j)) as [->|Hne].
  - simplify_eq. rewrite list_insert_insert_eq. by rewrite list_insert_id.
  - apply (Permutation_cons_inv (a := b)).
    rewrite insert_exchange; last by rewrite list_lookup_insert_ne.
    by rewrite insert_exchange.
Qed.

Lemma shuffle_go_perm i x g : (shuffle_go i x g).1 ≡ₚ x.
Proof.
  revert x g. induction i as [|i IH]; intros x g; [done |].
  cbn [shuffle_go].
  destruct (randbelow (S (S i)) g) as [j g1].
  by rewrite IH, swap_perm.
Qed.

(** [shuffle] rearranges, it neither drops nor repeats an item. *)
Lemma shuffle_perm x g : (shuffle x g).1 ≡ₚ x.
Proof. apply shuffle_go_perm. Qed.
End Ops.
End RandomFacts.

(* ================================================================== *)
(** * The question generator *)
(* ================================================================== *)

Section GeneratorFacts.
Variable nlp : string -> option Doc.

Lemma list_set_NoDup xs : NoDup (list_set xs).
Proof. unfold list_set. apply NoDup_elements. Qed.

Lemma elem_of_list_set x xs : x ∈ list_set xs <-> x ∈ xs.
Proof. unfold list_set. by rewrite elem_of_elements, elem_of_list_to_set. Qed.

Lemma named_entities_unique doc :
  unique_of (entity_candidate doc) (named_entities doc).
Proof.
  split; [apply list_set_NoDup |]. intros x.
  unfold named_entities, entity_candidate.
  rewrite elem_of_list_set, list_elem_of_fmap.
  setoid_rewrite list_elem_of_filter. setoid_rewrite list_elem_of_filter.
  split; intros (t & H); exists t; tauto.
Qed.

Lemma important_nouns_unique doc :
  unique_of (noun_candidate doc) (important_nouns doc).
Proof.
  split; [apply list_set_NoDup |]. intros x.
  unfold important_nouns, noun_candidate.
  rewrite elem_of_list_set, list_elem_of_fmap.
  setoid_rewrite list_elem_of_filter. split; intros (t & H); exists t; tauto.
Qed.

Lemma significant_words_unique doc :
  unique_of (word_candidate doc) (significant_words doc).
Proof.
  split; [apply list_set_NoDup |]. intros x.
  unfold significant_words, word_candidate.
  rewrite elem_of_list_set, list_elem_of_fmap.
  setoid_rewrite list_elem_of_filter. split; intros (t & H); exists t; tauto.
Qed.

(** The cascade of lines 83-94, written out. *)
Lemma candidate_pool_cases doc :
  candidate_pool doc =
    if 4 <=? length (named_entities doc) then Some (named_entities doc)
    else if 4 <=? length (important_nouns doc)
         then Some (important_nouns doc)
         else if 4 <=? length (significant_words doc)
              then Some (significant_words doc)
              else None.
Proof.
  unfold candidate_pool. cbv zeta. rewrite !Nat.ltb_antisym.
  destruct (4 <=? length (named_entities doc)) eqn:H1; cbn [negb].
  - rewrite ?Nat.ltb_antisym, H1. cbn [negb].
    by rewrite ?Nat.ltb_antisym, H1.
  - rewrite ?Nat.ltb_antisym.
    destruct (4 <=? length (important_nouns doc)) eqn:H2; cbn [negb].
    + by rewrite ?Nat.ltb_antisym, H2.
    + rewrite ?Nat.ltb_antisym.
      by destruct (4 <=? length (significant_words doc)).
Qed.

Lemma candidate_pool_accepted doc pool :
  candidate_pool doc = Some pool -> accepted_tier doc pool.
Proof.
  rewrite candidate_pool_cases.
  destruct (4 <=? length (named_entities doc)) eqn:H1.
  { intros [= <-]. apply Nat.leb_le in H1.
    apply accept_entities; [apply named_entities_unique | done]. }
  apply Nat.leb_gt in H1.
  destruct (4 <=? length (important_nouns doc)) eqn:H2.
  { intros [= <-]. apply Nat.leb_le in H2.
    eapply accept_nouns;
      [apply named_entities_unique | done
      | apply important_nouns_unique | done]. }
  apply Nat.leb_gt in H2.
  destruct (4 <=? length (significant_words doc)) eqn:H3; [|done].
  intros [= <-]. apply Nat.leb_le in H3.
  eapply accept_words;
    [apply named_entities_unique | done | apply important_nouns_unique
    | done | apply significant_words_unique | done].
Qed.

Lemma candidate_pool_NoDup doc pool :
  candidate_pool doc = Some pool -> NoDup pool ∧ 4 ≤ length pool.
Proof.
  intros H%candidate_pool_accepted.
  destruct H as [[? _] ?|? _ _ [? _] ?|? ? _ _ _ _ [? _] ?]; done.
Qed.

Lemma candidate_pool_None doc :
  candidate_pool doc = None <->
  length (named_entities doc) < 4 ∧ length (important_nouns doc) < 4
  ∧ length (significant_words doc) < 4.
Proof.
  rewrite candidate_pool_cases.
  destruct (4 <=? length (named_entities doc)) eqn:H1;
    [apply Nat.leb_le in H1 | apply Nat.leb_gt in H1].
  { split; [done | lia]. }
  destruct (4 <=? length (important_nouns doc)) eqn:H2;
    [apply Nat.leb_le in H2 | apply Nat.leb_gt in H2].
  { split; [done | lia]. }
  destruct (4 <=? length (significant_words doc)) eqn:H3;
    [apply Nat.leb_le in H3 | apply Nat.leb_gt in H3].
  { split; [done | lia]. }
  done.
Qed.

(** What a successful call went through. *)
Lemma generate_inv text g q g' :
  generate_quiz_question nlp text g = (Some q, g') ->
  ∃ doc pool g1 distractors g2,
    PyStr.strip text ≠ EmptyString
    ∧ nlp text = Some doc
    ∧ candidate_pool doc = Some pool
    ∧ Random.choice pool g = (Some (answer q), g1)
    ∧ question q = question_sentence (answer q) doc
    ∧ Random.sample (filter (fun e => e ≠ answer q) pool) 3 g1
      = (Some distractors, g2)
    ∧ Random.shuffle (distractors ++ [answer q]) g2 = (choices q, g').
Proof.
  unfold generate_quiz_question, generate_body.
  destruct (PyStr.is_empty (PyStr.strip text)) eqn:He; [done |].
  apply PyStrFacts.is_empty_false in He.
  destruct (nlp text) as [doc|]; [|done].
  destruct (candidate_pool doc) as [pool|] eqn:Hpool; [|done].
  destruct (Random.choice pool g) as [[a|] g1] eqn:Hc; [|done].
  destruct (Random.sample _ 3 g1) as [[ds|] g2] eqn:Hs; [|done].
  destruct (Random.shuffle _ g2) as [cs g3] eqn:Hsh.
  intros [= <- <-]. by exists doc, pool, g1, ds, g2.
Qed.

(** Every candidate is a non-empty string. *)
Lemma accepted_tier_nonempty doc pool x :
  accepted_tier doc pool -> x ∈ pool -> x ≠ EmptyString.
Proof.
  intros Hacc Hx.
  assert (0 < String.length x) as Hlen.
  { destruct Hacc as [[_ H] _|? _ _ [_ H] _|? ? _ _ _ _ [_ H] _];
      apply H in Hx; destruct Hx as (t & _ & Hx); destruct_and!; subst; lia. }
  destruct x; [simpl in Hlen; lia | done].
Qed.

Lemma find_sentence_spec a sentences :
  (∃ before sent after,
      sentences = before ++ sent :: after
      ∧ (∀ s, s ∈ before -> ¬ qualifies a s)
      ∧ qualifies a sent
      ∧ find_sentence a sentences = PyStr.replace a blank sent)
  ∨ ((∀ s, s ∈ sentences -> ¬ qualifies a s)
     ∧ find_sentence a sentences = EmptyString).
Proof.
  induction sentences as [|s rest IH]; cbn [find_sentence].
  { right. split; [|done]. intros s Hs. by apply elem_of_nil in Hs. }
  destruct (PyStr.contains a s) eqn:Hc; cbn [andb].
  - destruct (5 <? length (PyStr.split s)) eqn:Hw.
    + left. exists [], s, rest. apply Nat.ltb_lt in Hw.
      split_and!; try done. intros ? H. by apply elem_of_nil in H.
    + apply Nat.ltb_ge in Hw.
      destruct IH as [(before & sent & after & -> & Hb & Hq & Hf)|[Hall Hf]].
      * left. exists (s :: before), sent, after. split_and!; try done.
        intros s' [->|Hs']%elem_of_cons; [|by apply Hb].
        intros [_ ?]. lia.
      * right. split; [|done].
        intros s' [->|Hs']%elem_of_cons; [|by apply Hall].
        intros [_ ?]. lia.
  - destruct IH as [(before & sent & after & -> & Hb & Hq & Hf)|[Hall Hf]].
    + left. exists (s :: before), sent, after. split_and!; try done.
      intros s' [->|Hs']%elem_of_cons; [|by apply Hb].
      intros [? _]. congruence.
    + right. split; [|done].
      intros s' [->|Hs']%elem_of_cons; [|by apply Hall].
      intros [? _]. congruence.
Qed.

(** A sentence with the answer blanked out is not the empty string. *)
Lemma replace_blank_nonempty a sent :
  a ≠ EmptyString -> PyStr.contains a sent = true ->
  PyStr.is_empty (PyStr.replace a blank sent) = false.
Proof.
  intros Ha (u & v & -> & Hu)%PyStrFacts.contains_first.
  rewrite PyStrFacts.replace_next by done.
  by destruct u.
Qed.

(** C1. When [generate_quiz_question] returns a question, its choices
    are exactly four pairwise different strings, the correct answer is
    one of them, and the other three are distractors drawn without
    replacement from the accepted pool with the correct answer taken out:
    together with the items not drawn they make up that filtered pool, so
    no distractor is the correct answer. *)
Theorem choices_four_distinct text g q g' :
  generate_quiz_question nlp text g = (Some q, g') ->
  length (choices q) = 4 ∧ NoDup (choices q) ∧ answer q ∈ choices q
  ∧ ∃ doc pool distractors rest,
      nlp text = Some doc
      ∧ candidate_pool doc = Some pool
      ∧ answer q ∈ pool
      ∧ length distractors = 3
      ∧ distractors ++ rest ≡ₚ filter (fun e => e ≠ answer q) pool
      ∧ (answer q ∉ distractors)
      ∧ choices q ≡ₚ distractors ++ [answer q].
Proof.
  intros (doc & pool & g1 & ds & g2 & _ & Hdoc & Hpool & Hc & _ & Hs & Hsh)
    %generate_inv.
  apply candidate_pool_NoDup in Hpool as Hnd. destruct Hnd as [Hnd _].
  apply RandomFacts.choice_elem in Hc.
  apply RandomFacts.sample_spec in Hs as [Hlen [rest Hrest]].
  pose proof (RandomFacts.shuffle_perm (ds ++ [answer q]) g2) as Hperm.
  rewrite Hsh in Hperm. cbn [fst] in Hperm.
  assert (NoDup (ds ++ rest)) as Hnd'.
  { rewrite Hrest. by apply NoDup_filter. }
  apply NoDup_app in Hnd' as (Hds & _ & _).
  assert (answer q ∉ ds) as Hnot.
  { intros Hin.
    assert (answer q ∈ filter (fun e => e ≠ answer q) pool) as Hf.
    { rewrite <- Hrest. apply elem_of_app. by left. }
    apply list_elem_of_filter in Hf as [Hf _]. done. }
  split_and!.
  - rewrite Hperm, length_app, Hlen. done.
  - rewrite Hperm. apply NoDup_app. split_and!; [done | | apply NoDup_singleton].
    intros x Hx ->%list_elem_of_singleton. done.
  - rewrite Hperm. apply elem_of_app. right. by apply list_elem_of_singleton.
  - by exists doc, pool, ds, rest.
Qed.

(** C2, as the code has it. The pool the answer and the distractors come
    from is the pool of the first tier with four or more unique strings,
    the tiers being, in this order: the stripped texts longer than one
    character of the entities with one of the eight labels; the texts
    longer than three characters of the non-stopword tokens tagged NOUN
    (no punctuation test is made in this tier); the texts longer than two
    characters of the non-stopword, non-punctuation tokens. *)
Theorem pool_is_first_accepted_tier text g q g' :
  generate_quiz_question nlp text g = (Some q, g') ->
  ∃ doc pool,
    nlp text = Some doc
    ∧ candidate_pool doc = Some pool
    ∧ accepted_tier doc pool
    ∧ answer q ∈ pool
    ∧ ∀ c, c ∈ choices q -> c ∈ pool.
Proof.
  intros (doc & pool & g1 & ds & g2 & _ & Hdoc & Hpool & Hc & _ & Hs & Hsh)
    %generate_inv.
  apply RandomFacts.choice_elem in Hc.
  apply RandomFacts.sample_spec in Hs as [_ [rest Hrest]].
  pose proof (RandomFacts.shuffle_perm (ds ++ [answer q]) g2) as Hperm.
  rewrite Hsh in Hperm. cbn [fst] in Hperm.
  exists doc, pool. split_and!; try done.
  - by apply candidate_pool_accepted.
  - intros c Hin. rewrite Hperm in Hin.
    apply elem_of_app in Hin as [Hin| ->%list_elem_of_singleton]; [|done].
    assert (c ∈ filter (fun e => e ≠ answer q) pool) as Hf.
    { rewrite <- Hrest. apply elem_of_app. by left. }
    by apply list_elem_of_filter in Hf as [_ Hf].
Qed.

(** C4. The prompt of a returned question is made from the first
    sentence, in document order, that contains the correct answer and has
    more than five words, with all occurrences of the answer replaced by
    the blank; when no sentence is like that, the prompt is the generic
    one. *)
Theorem prompt_from_first_qualifying_sentence text g q g' :
  generate_quiz_question nlp text g = (Some q, g') ->
  ∃ doc,
    nlp text = Some doc
    ∧ ((∃ before sent after,
           sents doc = before ++ sent :: after
           ∧ (∀ s, s ∈ before -> ¬ qualifies (answer q) s)
           ∧ qualifies (answer q) sent
           ∧ question q = PyStr.replace (answer q) blank sent
           ∧ replaced_all (answer q) blank sent (question q))
       ∨ ((∀ s, s ∈ sents doc -> ¬ qualifies (answer q) s)
          ∧ question q = "What is the missing word: _____?")).
Proof.
  intros (doc & pool & g1 & ds & g2 & _ & Hdoc & Hpool & Hc & Hq & _)
    %generate_inv.
  apply RandomFacts.choice_elem in Hc.
  apply candidate_pool_accepted in Hpool.
  pose proof (accepted_tier_nonempty _ _ _ Hpool Hc) as Hne.
  exists doc. split; [done |]. rewrite Hq. unfold question_sentence.
  destruct (find_sentence_spec (answer q) (sents doc))
    as [(before & sent & after & Hsplit & Hb & Hqual & Hf)|[Hall Hf]].
  - left. exists before, sent, after. rewrite Hf.
    rewrite replace_blank_nonempty by (done || apply Hqual).
    split_and!; try done. by apply PyStrFacts.replace_replaced_all.
  - right. by rewrite Hf.
Qed.
End GeneratorFacts.

Lemma choices_four_distinct_witness :
  length (choices curie_question) = 4 ∧ NoDup (choices curie_question)
  ∧ answer curie_question ∈ choices curie_question
  ∧ ∃ doc pool distractors rest,
      nlp_of curie_doc curie_text = Some doc
      ∧ candidate_pool doc = Some pool
      ∧ answer curie_question ∈ pool
      ∧ length distractors = 3
      ∧ distractors ++ rest ≡ₚ filter (fun e => e ≠ answer curie_question) pool
      ∧ (answer curie_question ∉ distractors)
      ∧ choices curie_question ≡ₚ distractors ++ [answer curie_question].
Proof.
  apply (choices_four_distinct (nlp_of curie_doc) curie_text rng0
           curie_question rng7).
  vm_compute. reflexivity.
Defined.

Lemma pool_is_first_accepted_tier_witness :
  ∃ doc pool,
    nlp_of curie_doc curie_text = Some doc
    ∧ candidate_pool doc = Some pool
    ∧ accepted_tier doc pool
    ∧ answer curie_question ∈ pool
    ∧ ∀ c, c ∈ choices curie_question -> c ∈ pool.
Proof.
  apply (pool_is_first_accepted_tier (nlp_of curie_doc) curie_text rng0
           curie_question rng7).
  vm_compute. reflexivity.
Defined.

(** C2 as stated fails: on a text whose only nouns are punctuation the
    code accepts the noun tier and asks a question, where the tiers as
    stated have no pool at all. *)
Lemma stated_tiers_counterexample :
  candidate_pool gaps_doc = Some ["_____"; "-----"; "....."; "*****"]
  ∧ stated_candidate_pool gaps_doc = None
  ∧ generate_quiz_question (nlp_of gaps_doc) gaps_text rng0
    = (Some gaps_question, rng7).
Proof. vm_compute. done. Qed.

Lemma prompt_from_first_qualifying_sentence_witness :
  ∃ doc,
    nlp_of curie_doc curie_text = Some doc
    ∧ ((∃ before sent after,
           sents doc = before ++ sent :: after
           ∧ (∀ s, s ∈ before -> ¬ qualifies (answer curie_question) s)
           ∧ qualifies (answer curie_question) sent
           ∧ question curie_question
             = PyStr.replace (answer curie_question) blank sent
           ∧ replaced_all (answer curie_question) blank sent
               (question curie_question))
       ∨ ((∀ s, s ∈ sents doc -> ¬ qualifies (answer curie_question) s)
          ∧ question curie_question = "What is the missing word: _____?")).
Proof.
  apply (prompt_from_first_qualifying_sentence (nlp_of curie_doc) curie_text
           rng0 curie_question rng7).
  vm_compute. reflexivity.
Defined.

(* ================================================================== *)
(** * The score store *)
(* ================================================================== *)

Section MaxFacts.
Context {A : Type} (key : A -> option Z).

Lemma max_go_raises items best best_key x :
  x ∈ items -> key x = None -> max_go key best best_key items = None.
Proof.
  revert best best_key.
  induction items as [|y items IH]; intros best best_key Hin Hx.
  { by apply elem_of_nil in Hin. }
  cbn [max_go]. apply elem_of_cons in Hin as [<-|Hin]; [by rewrite Hx |].
  destruct (key y) as [k|]; [|done].
  destruct (best_key <? k)%Z; by apply IH.
Qed.

Lemma max_by_raises items x :
  x ∈ items -> key x = None -> max_by key items = None.
Proof.
  destruct items as [|y items]; [done |]. cbn [max_by].
  intros [<-|Hin]%elem_of_cons Hx; [by rewrite Hx |].
  destruct (key y); [|done]. by eapply max_go_raises.
Qed.

(** The loop keeps the first largest of what it has seen. *)
Lemma max_go_first_max seen items best best_key :
  first_max key seen best -> key best = Some best_key ->
  (∀ x, x ∈ items -> is_Some (key x)) ->
  ∃ r, max_go key best best_key items = Some r
       ∧ first_max key (seen ++ items) r.
Proof.
  revert seen best best_key.
  induction items as [|y items IH]; intros seen best best_key Hfm Hk Hall.
  { exists best. by rewrite app_nil_r. }
  cbn [max_go].
  destruct (Hall y) as [k Hy]; [by left |]. rewrite Hy.
  replace (seen ++ y :: items) with ((seen ++ [y]) ++ items)
    by by rewrite <- app_assoc.
  destruct Hfm as (before & after & k0 & -> & Hk0 & Hb & Ha).
  assert (k0 = best_key) as -> by congruence.
  destruct (best_key <? k)%Z eqn:Hlt.
  - apply Z.ltb_lt in Hlt. apply IH; [|done|]; last first.
    { intros x Hx. apply Hall. by right. }
    exists (before ++ best :: after), [], k. split_and!; try done.
    + intros x [Hx|[->|Hx]%elem_of_cons]%elem_of_app.
      * destruct (Hb x Hx) as (k' & ? & ?). exists k'. split; [done | lia].
      * by exists best_key.
      * destruct (Ha x Hx) as (k' & ? & ?). exists k'. split; [done | lia].
    + intros x Hx. by apply elem_of_nil in Hx.
  - apply Z.ltb_ge in Hlt. apply IH; [|done|]; last first.
    { intros x Hx. apply Hall. by right. }
    exists before, (after ++ [y]), best_key. split_and!; try done.
    + by rewrite <- app_assoc.
    + intros x [Hx| ->%list_elem_of_singleton]%elem_of_app; [by apply Ha |].
      by exists k.
Qed.

Lemma max_by_first_max items :
  items ≠ [] -> (∀ x, x ∈ items -> is_Some (key x)) ->
  ∃ r, max_by key items = Some r ∧ first_max key items r.
Proof.
  destruct items as [|y items]; [done |]. intros _ Hall. cbn [max_by].
  destruct (Hall y) as [k Hy]; [by left |]. rewrite Hy.
  apply (max_go_first_max [y]); [|done|].
  - exists [], [], k. split_and!; try done;
      intros x Hx; by apply elem_of_nil in Hx.
  - intros x Hx. apply Hall. by right.
Qed.
End MaxFacts.

Section ScoreFacts.
Variable limit : nat.

(** A one-digit count passes whatever the digit limit is. *)
Lemma within_limit_1 : PyStr.within_limit limit 1 = true.
Proof.
  unfold PyStr.within_limit. destruct limit; [done |].
  by rewrite orb_true_r.
Qed.

Lemma score_key_2 : score_key limit "2 / 5" = Some 2%Z.
Proof. cbv -[PyStr.within_limit]. by rewrite within_limit_1. Qed.

Lemma score_key_4 : score_key limit "4 / 5" = Some 4%Z.
Proof. cbv -[PyStr.within_limit]. by rewrite within_limit_1. Qed.

Lemma score_key_1 : score_key limit "1 / 5" = Some 1%Z.
Proof. cbv -[PyStr.within_limit]. by rewrite within_limit_1. Qed.

(** C8, as the code has it. [get_highest_score] answers ["N/A"] when
    the store is empty and when some record of it cannot be parsed;
    when the store is not empty and every record can be parsed, it
    returns the first record whose number before the ['/'] is the
    largest. For ["2 / 5"; "4 / 5"; "1 / 5"] that is ["4 / 5"]. *)
Theorem highest_score_first_max self :
  (scores self = [] -> get_highest_score limit self = "N/A")
  ∧ ((∃ r, r ∈ scores self ∧ score_key limit r = None) ->
     get_highest_score limit self = "N/A")
  ∧ (scores self ≠ [] ->
     (∀ r, r ∈ scores self -> is_Some (score_key limit r)) ->
     first_max (score_key limit) (scores self)
       (get_highest_score limit self))
  ∧ (scores self = ["2 / 5"; "4 / 5"; "1 / 5"] ->
     get_highest_score limit self = "4 / 5").
Proof.
  unfold get_highest_score. split_and!.
  - by intros ->.
  - intros (r & Hin & Hr). rewrite (max_by_raises _ _ _ Hin Hr).
    by destruct (scores self).
  - intros Hne Hall.
    destruct (max_by_first_max (score_key limit) _ Hne Hall) as (r & -> & Hr).
    by destruct (scores self).
  - intros ->. cbn [max_by max_go].
    by rewrite score_key_2, score_key_4, score_key_1.
Qed.
End ScoreFacts.

Lemma highest_score_first_max_witness :
  let store := with_scores ["2 / 5"; "4 / 5"; "1 / 5"] ready in
  get_highest_score default_max_str_digits (with_scores [] ready) = "N/A"
  ∧ get_highest_score default_max_str_digits
      (with_scores ["2 / 5"; "four"] ready) = "N/A"
  ∧ first_max (score_key default_max_str_digits) (scores store)
      (get_highest_score default_max_str_digits store)
  ∧ get_highest_score default_max_str_digits store = "4 / 5".
Proof.
  intros store.
  destruct (highest_score_first_max default_max_str_digits
              (with_scores [] ready)) as (Hempty & _).
  destruct (highest_score_first_max default_max_str_digits
              (with_scores ["2 / 5"; "four"] ready)) as (_ & Hbad & _).
  destruct (highest_score_first_max default_max_str_digits store)
    as (_ & _ & Hmax & Hex).
  split_and!.
  - apply Hempty. reflexivity.
  - apply Hbad. exists "four". split; [|vm_compute; reflexivity].
    apply list_elem_of_In. simpl. tauto.
  - apply Hmax; [discriminate |].
    intros r Hr. apply list_elem_of_In in Hr. simpl in Hr.
    destruct Hr as [<-|[<-|[<-|[]]]]; vm_compute; eexists; reflexivity.
  - apply Hex. reflexivity.
Defined.

(** C8 as stated fails: one record that cannot be parsed hides the
    others, though they can be parsed and the store is not empty. *)
Lemma highest_score_counterexample :
  let store := with_scores ["3 / 5"; "three"] ready in
  get_highest_score default_max_str_digits store = "N/A"
  ∧ scores store ≠ []
  ∧ score_key default_max_str_digits "3 / 5" = Some 3%Z
  ∧ "3 / 5" ∈ scores store.
Proof.
  split_and!; [vm_compute; reflexivity | discriminate
              | vm_compute; reflexivity |].
  apply list_elem_of_In. simpl. tauto.
Qed.

(* ================================================================== *)
(** * Text extraction *)
(* ================================================================== *)

Section ExtractFacts.
Variable limit : nat.

Lemma getitem_in_range doc (i : nat) :
  i < page_count doc -> getitem doc (Z.of_nat i) = page_texts doc !! i.
Proof.
  intros Hi. unfold getitem.
  destruct (Z.of_nat (page_count doc) <=? Z.of_nat i)%Z eqn:H1.
  { apply Z.leb_le in H1. lia. }
  destruct (Z.of_nat i <? 0)%Z eqn:H2.
  { apply Z.ltb_lt in H2. lia. }
  by rewrite Nat2Z.id.
Qed.

(** Reading [k] pages from page [s + 1] on. *)
Lemma pages_from doc (k s : nat) :
  s + k ≤ page_count doc ->
  mapM (fun p => getitem doc (p - 1)) (seqZ (Z.of_nat s + 1) (Z.of_nat k))
  = Some (take k (drop s (page_texts doc))).
Proof.
  revert s. induction k as [|k IH]; intros s Hs.
  { by rewrite take_0. }
  rewrite seqZ_cons by lia. cbn [mapM].
  replace (Z.of_nat s + 1 - 1)%Z with (Z.of_nat s) by lia.
  rewrite getitem_in_range by lia.
  destruct (lookup_lt_is_Some_2 (page_texts doc) s) as [t Ht].
  { unfold page_count in Hs. lia. }
  rewrite Ht. cbn [mbind option_bind].
  replace (Z.succ (Z.of_nat s + 1)) with (Z.of_nat (S s) + 1)%Z by lia.
  replace (Z.pred (Z.of_nat (S k))) with (Z.of_nat k) by lia.
  rewrite IH by lia. cbn [mbind option_bind mret option_ret].
  by rewrite (drop_S _ _ _ Ht).
Qed.

Lemma extract_valid doc start_page end_page :
  (1 <= start_page)%Z -> (start_page <= end_page)%Z ->
  (end_page <= Z.of_nat (page_count doc))%Z ->
  extract_text_from_pdf doc start_page end_page
  = inr (pages_text doc start_page end_page).
Proof.
  intros H1 H2 H3. unfold extract_text_from_pdf, pages_text.
  pose proof (pages_from doc (Z.to_nat (end_page - start_page + 1))
                (Z.to_nat (start_page - 1))) as H.
  rewrite !Z2Nat.id in H by lia.
  replace (start_page - 1 + 1)%Z with start_page in H by lia.
  replace (end_page + 1 - start_page)%Z with (end_page - start_page + 1)%Z
    by lia.
  rewrite H by lia. done.
Qed.

Lemma extract_empty_range doc start_page end_page :
  (end_page < start_page)%Z ->
  extract_text_from_pdf doc start_page end_page = inr EmptyString.
Proof.
  intros H. unfold extract_text_from_pdf.
  by rewrite seqZ_nil by lia.
Qed.

(** C9, as the code has it. For [1 ≤ start ≤ end ≤ page count]
    [extract_text_from_pdf] returns the texts of the pages [start] to
    [end] joined in page order with nothing between them. It does not
    check the range itself: for [start > end] it returns the empty
    string. The check is made by its caller [extract_text_clicked],
    which for a range that is not [1 ≤ start ≤ end ≤ page count] shows
    the page-range error and changes nothing else, and for a good range
    stores the extracted text. *)
Theorem extract_range_checked_by_caller doc start_page end_page :
  let valid :=
    (1 <= start_page ∧ start_page <= end_page
     ∧ end_page <= Z.of_nat (page_count doc))%Z in
  (valid ->
   extract_text_from_pdf doc start_page end_page
   = inr (pages_text doc start_page end_page))
  ∧ ((end_page < start_page)%Z ->
     extract_text_from_pdf doc start_page end_page = inr EmptyString)
  ∧ ∀ self,
      pdf_doc self = Some doc ->
      PyStr.int limit (start_page_entry self) = Some start_page ->
      PyStr.int limit (end_page_entry self) = Some end_page ->
      (valid ->
       extracted_text_content (extract_text_clicked limit self)
       = pages_text doc start_page end_page
       ∧ output_text_area (extract_text_clicked limit self)
         = pages_text doc start_page end_page
       ∧ dialog (extract_text_clicked limit self) = dialog self)
      ∧ (¬ valid ->
         dialog (extract_text_clicked limit self) = Some (invalid_range doc)
         ∧ with_dialog (dialog self) (extract_text_clicked limit self) = self).
Proof.
  intros valid. split_and!.
  - intros (H1 & H2 & H3). by apply extract_valid.
  - apply extract_empty_range.
  - intros self Hdoc Hs He. unfold extract_text_clicked.
    rewrite Hdoc, Hs, He. split.
    + intros (H1 & H2 & H3).
      rewrite (proj2 (Z.leb_le _ _) H1), (proj2 (Z.leb_le _ _) H2),
        (proj2 (Z.leb_le _ _) H3). cbn [andb negb].
      by rewrite extract_valid.
    + intros Hinv.
      destruct (negb _) eqn:Hn.
      * split; [done |]. by destruct self.
      * exfalso. apply Hinv. apply negb_false_iff in Hn.
        apply andb_prop in Hn as [[H1 H2]%andb_prop H3].
        apply Z.leb_le in H1, H2, H3. done.
Qed.
End ExtractFacts.

Lemma extract_range_checked_by_caller_witness :
  extract_text_from_pdf two_pages 1 2 = inr "alpha beta"
  ∧ extract_text_from_pdf two_pages 2 1 = inr EmptyString
  ∧ extracted_text_content
      (extract_text_clicked default_max_str_digits (entries "1" "2" ready))
    = "alpha beta"
  ∧ dialog (extract_text_clicked default_max_str_digits (entries "2" "1" ready))
    = Some (invalid_range two_pages).
Proof.
  destruct (extract_range_checked_by_caller default_max_str_digits
              two_pages 1 2) as (Hok & _ & Hclick).
  destruct (extract_range_checked_by_caller default_max_str_digits
              two_pages 2 1) as (_ & Hempty & Hclick').
  split_and!.
  - apply Hok. cbn. lia.
  - apply Hempty. lia.
  - apply (Hclick (entries "1" "2" ready)); try reflexivity. cbn. lia.
  - apply (Hclick' (entries "2" "1" ready)); try reflexivity. cbn. lia.
Defined.

(** C9 as stated fails: with the pages reversed [extract_text_from_pdf]
    returns a result, the empty string, and raises nothing. *)
Lemma extract_reversed_range_counterexample :
  extract_text_from_pdf two_pages 2 1 = inr EmptyString.
Proof. reflexivity. Qed.

(* ================================================================== *)
(** * The quiz session *)
(* ================================================================== *)

Section QuizFacts.
Variable nlp : string -> option Doc.
Variable limit : nat.

Lemma score_record_nonempty self :
  PyStr.is_empty (score_record self) = false.
Proof. unfold score_record. by destruct (pretty (quiz_score self)). Qed.

Lemma end_quiz_clicked_eq self :
  end_quiz_clicked limit self
  = handle_quiz_end limit
      (if 0 <? quiz_questions_asked self then Some (score_record self)
       else None)
      (with_quiz_timer None self).
Proof.
  unfold end_quiz_clicked. destruct self as [? ? ? ? [t|]]; reflexivity.
Qed.

Lemma handle_quiz_end_record self s :
  PyStr.is_empty s = false ->
  handle_quiz_end limit (Some s) self
  = build_main_view
      (update_score_display limit
         (save_scores (with_scores (scores self ++ [s]) self))).
Proof. intros H. unfold handle_quiz_end. by rewrite H. Qed.

(** What [end_quiz_clicked] leaves behind. *)
Lemma end_quiz_clicked_spec self :
  let self' := end_quiz_clicked limit self in
  view self' = MainView ∧ quiz_timer self' = None
  ∧ dialog self' = dialog self
  ∧ (0 < quiz_questions_asked self ->
     scores self' = scores self ++ [score_record self]
     ∧ (scores_file_writable self = true ->
        scores_file self' = JsonScores (scores self'))
     ∧ (scores_file_writable self = false ->
        scores_file self' = scores_file self))
  ∧ (quiz_questions_asked self = 0 ->
     scores self' = scores self ∧ scores_file self' = scores_file self).
Proof.
  cbv zeta. rewrite end_quiz_clicked_eq.
  destruct (0 <? quiz_questions_asked self) eqn:Hasked.
  - apply Nat.ltb_lt in Hasked.
    rewrite handle_quiz_end_record by apply score_record_nonempty.
    unfold save_scores. cbn [scores_file_writable with_scores with_quiz_timer].
    destruct (scores_file_writable self) eqn:Hw;
      (split_and!; [done | done | done | | intros; lia]);
      intros _; split_and!; done.
  - apply Nat.ltb_ge in Hasked.
    split_and!; [done | done | done | intros; lia | done].
Qed.

(** The three ways through [generate_and_display_mcq]. *)
Lemma mcq_goal_reached self :
  (max_questions self <= Z.of_nat (quiz_questions_asked self))%Z ->
  ∃ message,
    generate_and_display_mcq nlp limit self
    = end_quiz_clicked limit (show_error_dialog message "Quiz Finished!" self).
Proof.
  intros H. unfold generate_and_display_mcq.
  rewrite (proj2 (Z.leb_le _ _) H). by eexists.
Qed.

Lemma mcq_exhausted self :
  (Z.of_nat (quiz_questions_asked self) < max_questions self)%Z ->
  (generate_quiz_question nlp (extracted_text_content self) (random self)).1
  = None ->
  ∃ message shown,
    generate_and_display_mcq nlp limit self
    = end_quiz_clicked limit
        (show_error_dialog message "Quiz Content Exhausted" shown)
    ∧ scores shown = scores self
    ∧ scores_file shown = scores_file self
    ∧ scores_file_writable shown = scores_file_writable self
    ∧ quiz_score shown = quiz_score self
    ∧ quiz_questions_asked shown = quiz_questions_asked self.
Proof.
  intros H Hgen. unfold generate_and_display_mcq.
  rewrite (proj2 (Z.leb_gt _ _) H). cbv zeta. cbn [extracted_text_content random with_quiz].
  destruct (generate_quiz_question _ _ _) as [[q|] g] eqn:Hg; [done |].
  by eexists _, _.
Qed.

Lemma mcq_question self q g :
  (Z.of_nat (quiz_questions_asked self) < max_questions self)%Z ->
  generate_quiz_question nlp (extracted_text_content self) (random self)
  = (Some q, g) ->
  let self' := generate_and_display_mcq nlp limit self in
  view self' = view self ∧ scores self' = scores self
  ∧ scores_file self' = scores_file self
  ∧ quiz_score self' = quiz_score self
  ∧ quiz_questions_asked self' = quiz_questions_asked self
  ∧ max_questions self' = max_questions self
  ∧ random self' = g
  ∧ quiz_correct_answer self' = answer q
  ∧ quiz_choices_group_controls (quiz self') = choices q
  ∧ quiz_question_label (quiz self') = display_text (question q)
  ∧ quiz_submit_button_disabled (quiz self') = false.
Proof.
  intros H Hgen. unfold generate_and_display_mcq.
  rewrite (proj2 (Z.leb_gt _ _) H). cbv zeta.
  cbn [extracted_text_content random with_quiz]. rewrite Hgen. done.
Qed.

(** C3. A text that is empty or only whitespace, and a text none of
    whose tiers has four unique candidates, gets no question:
    [generate_quiz_question] returns [None] and leaves the random state
    alone, and in the second case the [try] block ends by its own
    [return None], not by an exception. [generate_and_display_mcq] takes
    the missing question as the end of the content: it shows the
    "Quiz Content Exhausted" dialog and ends the quiz. *)
Theorem too_few_candidates_no_question text g :
  (all_space text = true
   ∨ ∃ doc, nlp text = Some doc
            ∧ length (named_entities doc) < 4
            ∧ length (important_nouns doc) < 4
            ∧ length (significant_words doc) < 4) ->
  generate_quiz_question nlp text g = (None, g)
  ∧ (all_space text = false -> generate_body nlp text g = (inr None, g))
  ∧ ∀ self,
      extracted_text_content self = text -> random self = g ->
      (Z.of_nat (quiz_questions_asked self) < max_questions self)%Z ->
      let self' := generate_and_display_mcq nlp limit self in
      finishes nlp limit self ContentExhausted self'
      ∧ view self' = MainView ∧ quiz_timer self' = None
      ∧ ∃ message,
          dialog self'
          = Some {| title := "Quiz Content Exhausted";
                    content := message; open := true |}.
Proof.
  intros H.
  assert (all_space text = false -> generate_body nlp text g = (inr None, g))
    as Hbody.
  { intros Hsp. destruct H as [H|(doc & Hdoc & Hlen)]; [congruence |].
    unfold generate_body. rewrite Hdoc.
    by rewrite (proj2 (candidate_pool_None doc) Hlen). }
  assert (generate_quiz_question nlp text g = (None, g)) as Hgen.
  { unfold generate_quiz_question.
    destruct (all_space text) eqn:Hsp.
    - by rewrite PyStrFacts.strip_all_space.
    - rewrite Hbody by done. by destruct (PyStr.is_empty _). }
  split_and!; [done | done |].
  intros self <- <- Hlt. cbv zeta.
  assert ((generate_quiz_question nlp (extracted_text_content self)
             (random self)).1 = None) as Hnone by by rewrite Hgen.
  split; [by apply finish_exhausted |].
  destruct (mcq_exhausted self Hlt Hnone) as (message & shown & -> & _).
  destruct (end_quiz_clicked_spec
              (show_error_dialog message "Quiz Content Exhausted" shown))
    as (Hv & Ht & Hd & _).
  split_and!; [done | done | by exists message].
Qed.

(** C5. With fewer than 200 characters of stripped text
    [start_quiz_clicked] only shows the insufficient-text error; with
    enough text and a quiz length that is not a positive integer it only
    shows the quiz-length error; in both cases nothing but the dialog
    changes. With enough text and a positive length [n] the score and the
    count of questions asked are set to 0, the quiz view is built and the
    first question is asked for at once. *)
Theorem start_quiz_checks self :
  let text_len :=
    String.length (PyStr.strip (extracted_text_content self)) in
  let self' := start_quiz_clicked nlp limit self in
  (text_len < 200 ->
   dialog self' = Some insufficient_text
   ∧ with_dialog (dialog self) self' = self)
  ∧ (200 ≤ text_len ->
     (∀ n, PyStr.int limit (num_questions_entry self) = Some n ->
           (n <= 0)%Z) ->
     dialog self' = Some invalid_quiz_length
     ∧ with_dialog (dialog self) self' = self)
  ∧ (200 ≤ text_len ->
     ∀ n, PyStr.int limit (num_questions_entry self) = Some n ->
          (0 < n)%Z ->
     let started :=
       build_quiz_view limit
         (with_quiz_questions_asked 0
            (with_quiz_score 0 (with_max_questions n self))) in
     let first :=
       generate_quiz_question nlp (extracted_text_content self)
         (random self) in
     quiz_score started = 0 ∧ quiz_questions_asked started = 0
     ∧ max_questions started = n ∧ view started = QuizView
     ∧ self' = generate_and_display_mcq nlp limit started
     ∧ match first.1 with
       | Some q =>
           view self' = QuizView ∧ quiz_score self' = 0
           ∧ quiz_questions_asked self' = 0
           ∧ random self' = first.2
           ∧ quiz_correct_answer self' = answer q
           ∧ quiz_choices_group_controls (quiz self') = choices q
       | None => view self' = MainView ∧ scores self' = scores self
       end).
Proof.
  cbv zeta. unfold start_quiz_clicked. split_and!.
  - intros H. rewrite (proj2 (Nat.ltb_lt _ _) H).
    split; [done | by destruct self].
  - intros H Hn. rewrite (proj2 (Nat.ltb_ge _ _) H).
    destruct (PyStr.int limit (num_questions_entry self)) as [n|].
    + specialize (Hn n eq_refl). rewrite (proj2 (Z.leb_le _ _) Hn).
      split; [done | by destruct self].
    + split; [done | by destruct self].
  - intros H n Hn Hpos. rewrite (proj2 (Nat.ltb_ge _ _) H), Hn.
    rewrite (proj2 (Z.leb_gt _ _) Hpos).
    split_and!; try done.
    set (started := build_quiz_view limit _).
    assert (Z.of_nat (quiz_questions_asked started) < max_questions started)%Z
      as Hlt by (cbn; lia).
    destruct (generate_quiz_question nlp (extracted_text_content self)
                (random self)) as [[q|] g'] eqn:Hg; cbn [fst snd].
    + destruct (mcq_question started q g' Hlt Hg)
        as (? & ? & ? & ? & ? & ? & ? & ? & ? & ? & ?).
      split_and!; try done; congruence.
    + assert ((generate_quiz_question nlp (extracted_text_content started)
                 (random started)).1 = None) as Hnone.
      { cbn [extracted_text_content random started build_quiz_view with_quiz
             with_view with_quiz_questions_asked with_quiz_score
             with_max_questions]. by rewrite Hg. }
      destruct (mcq_exhausted started Hlt Hnone)
        as (message & shown & -> & Hsc & _ & _ & _ & Hasked).
      destruct (end_quiz_clicked_spec
                  (show_error_dialog message "Quiz Content Exhausted" shown))
        as (Hv & _ & _ & _ & Hzero).
      split; [done |].
      destruct Hzero as [-> _]; [exact Hasked | exact Hsc].
Qed.

(** What [check_quiz_answer] reads is what it leaves. *)
Lemma check_keeps_inputs self :
  quiz_choices_group_value (quiz (check_quiz_answer self))
  = quiz_choices_group_value (quiz self)
  ∧ quiz_correct_answer (check_quiz_answer self) = quiz_correct_answer self.
Proof. unfold check_quiz_answer. cbv zeta. by destruct (decide _). Qed.

Lemma check_counts_asked self :
  quiz_questions_asked (check_quiz_answer self)
  = quiz_questions_asked self + 1.
Proof. unfold check_quiz_answer. cbv zeta. by destruct (decide _). Qed.

Lemma check_counts_correct self :
  quiz_choices_group_value (quiz self) = Some (quiz_correct_answer self) ->
  quiz_score (check_quiz_answer self) = quiz_score self + 1.
Proof.
  intros H. unfold check_quiz_answer. cbv zeta.
  cbn [quiz with_quiz with_quiz_questions_asked quiz_correct_answer
       quiz_choices_group_value with_quiz_submit_button_disabled].
  by destruct (decide _).
Qed.

Lemma check_disables self :
  quiz_submit_button_disabled (quiz (check_quiz_answer self)) = true.
Proof. unfold check_quiz_answer. cbv zeta. by destruct (decide _). Qed.

Lemma end_quiz_keeps_widgets self :
  quiz (end_quiz_clicked limit self) = quiz self.
Proof.
  rewrite end_quiz_clicked_eq.
  destruct (0 <? quiz_questions_asked self); [|done].
  rewrite handle_quiz_end_record by apply score_record_nonempty.
  unfold save_scores. cbn [scores_file_writable with_scores with_quiz_timer].
  by destruct (scores_file_writable self).
Qed.

Lemma extract_keeps_widgets self :
  quiz (extract_text_clicked limit self) = quiz self.
Proof.
  unfold extract_text_clicked.
  destruct (pdf_doc self) as [doc|]; [|done].
  destruct (PyStr.int limit (start_page_entry self)) as [a|]; [|done].
  destruct (PyStr.int limit (end_page_entry self)) as [b|]; [|done].
  destruct (negb _); [done |].
  by destruct (extract_text_from_pdf doc a b).
Qed.

(** C6, as the code has it. The only thing [check_quiz_answer] does
    against a double submission is to disable the submit button: the
    button is disabled when the handler returns, and stays so under a
    further call, under [end_quiz_clicked] and under
    [extract_text_clicked]; it is [generate_and_display_mcq] that enables
    it again, when it has the next question. The handler has no guard of
    its own: called a second time before the advance it counts the
    question again, and with the correct choice selected the point
    again. *)
Theorem submission_guarded_by_button_only self :
  let submitted := check_quiz_answer self in
  quiz_submit_button_disabled (quiz submitted) = true
  ∧ quiz_submit_button_disabled (quiz (check_quiz_answer submitted)) = true
  ∧ quiz (end_quiz_clicked limit submitted) = quiz submitted
  ∧ quiz (extract_text_clicked limit submitted) = quiz submitted
  ∧ (∀ q g,
       (Z.of_nat (quiz_questions_asked submitted) < max_questions submitted)%Z ->
       generate_quiz_question nlp (extracted_text_content submitted)
         (random submitted) = (Some q, g) ->
       quiz_submit_button_disabled
         (quiz (generate_and_display_mcq nlp limit submitted)) = false)
  ∧ quiz_questions_asked (check_quiz_answer submitted)
    = quiz_questions_asked submitted + 1
  ∧ (quiz_choices_group_value (quiz self) = Some (quiz_correct_answer self) ->
     quiz_score submitted = quiz_score self + 1
     ∧ quiz_score (check_quiz_answer submitted) = quiz_score submitted + 1).
Proof.
  cbv zeta. split_and!.
  - apply check_disables.
  - apply check_disables.
  - apply end_quiz_keeps_widgets.
  - apply extract_keeps_widgets.
  - intros q g Hlt Hgen.
    by destruct (mcq_question (check_quiz_answer self) q g Hlt Hgen)
      as (_ & _ & _ & _ & _ & _ & _ & _ & _ & _ & ?).
  - apply check_counts_asked.
  - intros Hright. split; [by apply check_counts_correct |].
    apply check_counts_correct.
    destruct (check_keeps_inputs self) as [-> ->]. exact Hright.
Qed.


(** C10. Submitting with no choice picked counts as an answer: the count
    of questions asked grows by one, the score does not, the correct
    answer is shown in red and the next question is scheduled, all as for
    a wrong answer; and the click is delivered whether or not a choice is
    picked. *)
Theorem unselected_submission_counts self :
  quiz_choices_group_value (quiz self) = None ->
  let self' := check_quiz_answer self in
  quiz_questions_asked self' = quiz_questions_asked self + 1
  ∧ quiz_score self' = quiz_score self
  ∧ quiz_timer self' = Some Scheduled
  ∧ quiz_feedback_label (quiz self')
    = "Answer: " +:+ quiz_correct_answer self
  ∧ quiz_feedback_label_color (quiz self') = Some "red"
  ∧ (∀ wrong, wrong ≠ quiz_correct_answer self ->
       let other :=
         check_quiz_answer
           (with_quiz
              (with_quiz_choices_group_value (Some wrong) (quiz self)) self) in
       quiz_questions_asked other = quiz_questions_asked self'
       ∧ quiz_score other = quiz_score self'
       ∧ quiz_timer other = quiz_timer self'
       ∧ quiz_feedback_label (quiz other) = quiz_feedback_label (quiz self'))
  ∧ (view self = QuizView ->
     quiz_submit_button_disabled (quiz self) = false ->
     dispatch nlp limit ClickSubmit self = self').
Proof.
  intros Hnone. cbv zeta.
  assert (check_quiz_answer self
          = with_quiz_timer (Some Scheduled)
              (with_quiz
                 (with_quiz_feedback_label_color (Some "red")
                    (with_quiz_feedback_label
                       ("Answer: " +:+ quiz_correct_answer self)
                       (with_quiz_submit_button_disabled true (quiz self))))
                 (with_quiz_questions_asked (quiz_questions_asked self + 1)
                    self))) as ->.
  { unfold check_quiz_answer. cbv zeta.
    cbn [quiz with_quiz with_quiz_questions_asked
         quiz_choices_group_value with_quiz_submit_button_disabled].
    rewrite Hnone. by destruct (decide _). }
  split_and!; try done.
  - intros wrong Hwrong. unfold check_quiz_answer. cbv zeta.
    cbn [quiz with_quiz with_quiz_questions_asked quiz_correct_answer
         quiz_choices_group_value with_quiz_submit_button_disabled
         with_quiz_choices_group_value].
    destruct (decide _) as [[= ?]|_]; done.
  - intros Hv Hd. unfold dispatch. rewrite Hv, Hd.
    unfold check_quiz_answer. cbv zeta.
    cbn [quiz with_quiz with_quiz_questions_asked
         quiz_choices_group_value with_quiz_submit_button_disabled].
    rewrite Hnone. by destruct (decide _).
Qed.
End QuizFacts.

(* ================================================================== *)
(** * The quiz theorems at work *)
(* ================================================================== *)

Lemma too_few_candidates_no_question_witness :
  generate_quiz_question (nlp_of curie_doc) "   " rng0 = (None, rng0)
  ∧ generate_body (nlp_of sparse_doc) sparse_text (random starving)
    = (inr None, random starving)
  ∧ view (generate_and_display_mcq (nlp_of sparse_doc)
            default_max_str_digits starving) = MainView.
Proof.
  destruct (too_few_candidates_no_question (nlp_of curie_doc)
              default_max_str_digits "   " rng0) as (Hblank & _).
  { left. reflexivity. }
  destruct (too_few_candidates_no_question (nlp_of sparse_doc)
              default_max_str_digits sparse_text (random starving))
    as (_ & Hbody & Hcaller).
  { right. exists sparse_doc. split; [reflexivity |]. vm_compute. lia. }
  split_and!.
  - exact Hblank.
  - apply Hbody. reflexivity.
  - apply (Hcaller starving); [reflexivity | reflexivity |]. vm_compute.
    reflexivity.
Defined.

Lemma start_quiz_checks_witness :
  dialog (start_quiz_clicked (nlp_of curie_doc) default_max_str_digits
            (with_extracted_text_content "short" ready))
  = Some insufficient_text
  ∧ dialog (start_quiz_clicked (nlp_of curie_doc) default_max_str_digits
              (with_num_questions_entry "0" ready))
    = Some invalid_quiz_length
  ∧ pending
    = generate_and_display_mcq (nlp_of curie_doc) default_max_str_digits
        (build_quiz_view default_max_str_digits
           (with_quiz_questions_asked 0
              (with_quiz_score 0 (with_max_questions 5 ready)))).
Proof.
  destruct (start_quiz_checks (nlp_of curie_doc) default_max_str_digits
              (with_extracted_text_content "short" ready)) as (Hshort & _).
  destruct (start_quiz_checks (nlp_of curie_doc) default_max_str_digits
              (with_num_questions_entry "0" ready)) as (_ & Hzero & _).
  destruct (start_quiz_checks (nlp_of curie_doc) default_max_str_digits ready)
    as (_ & _ & Hstart).
  split_and!.
  - apply Hshort. vm_compute. lia.
  - apply Hzero.
    + vm_compute. lia.
    + intros n. vm_compute. intros [= <-]. discriminate.
  - assert (200 ≤ String.length (PyStr.strip (extracted_text_content ready)))
      as Hlen by (vm_compute; lia).
    assert (PyStr.int default_max_str_digits (num_questions_entry ready)
            = Some 5%Z) as Hfive by (vm_compute; reflexivity).
    cbv zeta in Hstart.
    destruct (Hstart Hlen 5%Z Hfive ltac:(lia)) as (_ & _ & _ & _ & Heq & _).
    exact Heq.
Defined.

Lemma submission_guarded_by_button_only_witness :
  quiz_submit_button_disabled (quiz (check_quiz_answer picked)) = true
  ∧ quiz_questions_asked (check_quiz_answer (check_quiz_answer picked))
    = quiz_questions_asked (check_quiz_answer picked) + 1
  ∧ quiz_score (check_quiz_answer picked) = quiz_score picked + 1
  ∧ quiz_score (check_quiz_answer (check_quiz_answer picked))
    = quiz_score (check_quiz_answer picked) + 1.
Proof.
  destruct (submission_guarded_by_button_only (nlp_of curie_doc)
              default_max_str_digits picked)
    as (Hoff & _ & _ & _ & _ & Hagain & Hscore).
  destruct Hscore as [Hfirst Hsecond].
  { vm_compute. reflexivity. }
  split_and!; assumption.
Defined.

(** C6 as stated fails: [check_quiz_answer] called a second time, the
    first answer still on display and its timer still running, counts the
    question and the point a second time. *)
Lemma double_call_counts_twice :
  view answered = QuizView ∧ quiz_timer answered = Some Scheduled
  ∧ quiz_questions_asked answered = 1 ∧ quiz_score answered = 1
  ∧ quiz_questions_asked (check_quiz_answer answered) = 2
  ∧ quiz_score (check_quiz_answer answered) = 2.
Proof. vm_compute. done. Qed.



Lemma unselected_submission_counts_witness :
  let submitted := check_quiz_answer pending in
  quiz_questions_asked submitted = quiz_questions_asked pending + 1
  ∧ quiz_score submitted = quiz_score pending
  ∧ quiz_timer submitted = Some Scheduled.
Proof.
  destruct (unselected_submission_counts (nlp_of curie_doc)
              default_max_str_digits pending)
    as (Hasked & Hscore & Htimer & _).
  { vm_compute. reflexivity. }
  split_and!; assumption.
Defined.

(* ================================================================== *)
(** * More about the question generator *)
(* ================================================================== *)

Lemma lstrip_empty s : PyStr.lstrip s = EmptyString -> all_space s = true.
Proof.
  induction s as [|c r IH]; [done |]. cbn [PyStr.lstrip all_space].
  destruct (PyStr.is_space c); [exact IH | done].
Qed.

Lemma all_space_rstrip s : all_space (PyStr.rstrip s) = all_space s.
Proof.
  induction s as [|c r IH]; [done |]. cbn [PyStr.rstrip all_space].
  destruct (PyStr.is_space c) eqn:Hc; cbn [andb].
  - destruct (PyStr.rstrip r) as [|d r'] eqn:Hr; cbn [PyStr.is_empty].
    + by rewrite <- IH.
    + cbn [all_space]. by rewrite Hc, <- IH.
  - cbn [all_space]. by rewrite Hc.
Qed.

(** [text.strip()] is empty exactly for a text of whitespace only. *)
Lemma strip_empty_iff s : PyStr.strip s = EmptyString <-> all_space s = true.
Proof.
  split; [|apply PyStrFacts.strip_all_space].
  intros H%lstrip_empty. by rewrite all_space_rstrip in H.
Qed.

Lemma contains_app_mid sub u w :
  PyStr.contains sub (u +:+ sub +:+ w) = true.
Proof.
  induction u as [|c u IH].
  - change (EmptyString +:+ sub +:+ w) with (sub +:+ w).
    destruct (sub +:+ w) eqn:Hs; cbn [PyStr.contains];
      rewrite <- Hs, PyStrFacts.prefix_app; done.
  - rewrite PyStrFacts.app_cons. cbn [PyStr.contains]. rewrite IH.
    apply orb_true_r.
Qed.

(** Taking one item out of a list without repetitions. *)
Lemma filter_out_one {B} `{EqDecision B} (l : list B) a :
  NoDup l -> a ∈ l -> l ≡ₚ a :: filter (fun b => b ≠ a) l.
Proof.
  induction l as [|b l IH]; intros Hnd Hin.
  { by apply elem_of_nil in Hin. }
  apply NoDup_cons in Hnd as [Hb Hnd].
  apply elem_of_cons in Hin as [->|Hin].
  - rewrite filter_cons_False by (intros H; by apply H).
    rewrite RandomFacts.filter_all; [done |].
    apply Forall_forall. intros x Hx ->. done.
  - assert (b ≠ a) as Hne by (intros ->; done).
    rewrite filter_cons_True by done.
    rewrite (IH Hnd Hin) at 1. apply perm_swap.
Qed.

Section GeneratorMore.
Variable nlp : string -> option Doc.

(** With a pool in hand the rest of the function cannot fail. *)
Lemma generate_from_pool text doc pool g :
  PyStr.strip text ≠ EmptyString -> nlp text = Some doc ->
  candidate_pool doc = Some pool ->
  ∃ q g', generate_quiz_question nlp text g = (Some q, g').
Proof.
  intros Htext Hdoc Hpool.
  destruct (candidate_pool_NoDup nlp doc pool Hpool) as [Hnd Hlen].
  unfold generate_quiz_question, generate_body.
  rewrite (proj2 (PyStrFacts.is_empty_false _) Htext), Hdoc, Hpool.
  destruct (RandomFacts.choice_nonempty pool g) as [a Ha].
  { intros ->. simpl in Hlen. lia. }
  destruct (Random.choice pool g) as [o g1] eqn:Hc. cbn [fst] in Ha. subst o.
  apply RandomFacts.choice_elem in Hc as Hin.
  pose proof (filter_out_one pool a Hnd Hin) as Hperm.
  apply Permutation_length in Hperm. cbn [length] in Hperm.
  destruct (RandomFacts.sample_succeeds
              (filter (fun e => e ≠ a) pool) 3 g1) as [ds Hds]; [lia |].
  destruct (Random.sample _ 3 g1) as [o g2]. cbn [fst] in Hds. subst o.
  destruct (Random.shuffle _ g2) as [cs g3]. by eexists _, _.
Qed.

(** The choices come from the accepted pool. *)
Lemma choices_from_pool text g q g' :
  generate_quiz_question nlp text g = (Some q, g') ->
  ∃ doc pool,
    accepted_tier doc pool ∧ ∀ c, c ∈ choices q -> c ∈ pool.
Proof.
  intros (doc & pool & g1 & ds & g2 & _ & Hdoc & Hpool & Hc & _ & Hs & Hsh)
    %generate_inv.
  apply RandomFacts.choice_elem in Hc.
  apply RandomFacts.sample_spec in Hs as [_ [rest Hrest]].
  pose proof (RandomFacts.shuffle_perm (ds ++ [answer q]) g2) as Hperm.
  rewrite Hsh in Hperm. cbn [fst] in Hperm.
  exists doc, pool. split; [by apply (candidate_pool_accepted nlp) |].
  intros c Hin. rewrite Hperm in Hin.
  apply elem_of_app in Hin as [Hin| ->%list_elem_of_singleton]; [|done].
  assert (c ∈ filter (fun e => e ≠ answer q) pool) as Hf.
  { rewrite <- Hrest. apply elem_of_app. by left. }
  by apply list_elem_of_filter in Hf as [_ Hf].
Qed.

(** X1. [generate_quiz_question] returns a question exactly when the text
    is not whitespace only, the language model runs, and one of the three
    tiers has four unique candidates or more. *)
Theorem generation_succeeds_iff text g :
  (∃ q g', generate_quiz_question nlp text g = (Some q, g'))
  <-> all_space text = false
      ∧ ∃ doc, nlp text = Some doc
               ∧ (4 ≤ length (named_entities doc)
                  ∨ 4 ≤ length (important_nouns doc)
                  ∨ 4 ≤ length (significant_words doc)).
Proof.
  split.
  - intros (q & g' & (doc & pool & _ & _ & _ & Htext & Hdoc & Hpool & _)
                       %generate_inv).
    split.
    + destruct (all_space text) eqn:Hsp; [|done].
      by apply strip_empty_iff in Hsp.
    + exists doc. split; [done |].
      destruct (candidate_pool doc) eqn:Hp; [|done].
      assert (candidate_pool doc ≠ None) as Hne by congruence.
      rewrite candidate_pool_None in Hne. lia.
  - intros (Hsp & doc & Hdoc & Hlen).
    destruct (candidate_pool doc) as [pool|] eqn:Hpool.
    + apply (generate_from_pool text doc pool); [|done..].
      intros H%strip_empty_iff. congruence.
    + apply candidate_pool_None in Hpool. lia.
Qed.

(** X2. No choice of a returned question is shorter than two
    characters. *)
Theorem choices_have_two_characters text g q g' :
  generate_quiz_question nlp text g = (Some q, g') ->
  ∀ c, c ∈ choices q -> 2 ≤ String.length c.
Proof.
  intros Hgen c Hc.
  destruct (choices_from_pool text g q g' Hgen) as (doc & pool & Hacc & Hsub).
  specialize (Hsub c Hc).
  destruct Hacc as [[_ H] _|? _ _ [_ H] _|? ? _ _ _ _ [_ H] _];
    apply H in Hsub; destruct Hsub as (t & _ & Hsub); destruct_and!; subst; lia.
Qed.

(** X3. The prompt of a returned question always has a blank in it. *)
Theorem prompt_has_blank text g q g' :
  generate_quiz_question nlp text g = (Some q, g') ->
  PyStr.contains blank (question q) = true.
Proof.
  intros (doc & pool & g1 & ds & g2 & _ & Hdoc & Hpool & Hc & Hq & _)
    %generate_inv.
  apply RandomFacts.choice_elem in Hc.
  apply (candidate_pool_accepted nlp) in Hpool.
  pose proof (accepted_tier_nonempty _ _ _ Hpool Hc) as Hne.
  rewrite Hq. unfold question_sentence.
  destruct (find_sentence_spec (answer q) (sents doc))
    as [(before & sent & after & _ & _ & [Hin _] & Hf)|[_ Hf]]; rewrite Hf.
  - rewrite replace_blank_nonempty by done.
    apply PyStrFacts.contains_first in Hin as (u & v & -> & Hu).
    rewrite PyStrFacts.replace_next by done. apply contains_app_mid.
  - reflexivity.
Qed.
End GeneratorMore.

(** ** The question text as shown *)

Lemma rfind_go_sound sub s i k :
  rfind_go sub s i = Some k ->
  ∃ u v, s = u +:+ sub +:+ v ∧ k = i + String.length u.
Proof.
  revert i. induction s as [|c r IH]; intros i; cbn [rfind_go].
  - destruct (String.prefix sub EmptyString) eqn:Hp; [|done].
    intros [= <-]. apply PyStrFacts.prefix_split in Hp as [v Hv].
    exists EmptyString, v. split; [done |]. cbn. lia.
  - destruct (rfind_go sub r (S i)) as [k'|] eqn:Hr.
    + intros [= <-]. destruct (IH _ Hr) as (u & v & -> & ->).
      exists (String c u), v. split; [done |]. cbn. lia.
    + destruct (String.prefix sub (String c r)) eqn:Hp; [|done].
      intros [= <-]. apply PyStrFacts.prefix_split in Hp as [v Hv].
      exists EmptyString, v. split; [done |]. cbn. lia.
Qed.

Lemma rfind_go_complete sub s i :
  PyStr.contains sub s = true -> is_Some (rfind_go sub s i).
Proof.
  revert i. induction s as [|c r IH]; intros i; cbn [PyStr.contains rfind_go].
  - rewrite orb_false_r. by intros ->.
  - intros [Hp|Hr]%orb_prop.
    + rewrite Hp. by destruct (rfind_go sub r (S i)).
    + destruct (IH (S i) Hr) as [k ->]. done.
Qed.

Lemma substring_app u w m :
  String.substring 0 (String.length u + m) (u +:+ w)
  = u +:+ String.substring 0 m w.
Proof.
  induction u as [|c u IH]; [done |].
  rewrite PyStrFacts.app_cons. cbn [String.length Nat.add String.substring].
  by rewrite IH.
Qed.

(** What is kept of a long question still has its last blank. *)
Lemma truncated_has_blank q :
  PyStr.contains blank q = true ->
  200 < String.length q ->
  let last_blank := rfind blank q in
  PyStr.contains blank
    (if (150 <? last_blank)%Z
     then String.substring 0 (Z.to_nat (last_blank + 5)) q +:+ "..."
     else String.substring 0 200 q +:+ "...") = true.
Proof.
  intros Hc Hlen. cbv zeta. unfold rfind.
  destruct (rfind_go_complete blank q 0 Hc) as [k Hk]. rewrite Hk.
  apply rfind_go_sound in Hk as (u & v & -> & ->). cbn [Nat.add].
  rewrite <- PyStrFacts.app_assoc.
  assert (String.length (u +:+ blank) = String.length u + 5) as Hub
    by by rewrite PyStrFacts.length_app.
  destruct (150 <? Z.of_nat (String.length u))%Z eqn:Hpos.
  - replace (Z.to_nat (Z.of_nat (String.length u) + 5))
      with (String.length (u +:+ blank) + 0) by lia.
    rewrite substring_app, !PyStrFacts.app_assoc.
    apply contains_app_mid.
  - apply Z.ltb_ge in Hpos.
    replace 200 with (String.length (u +:+ blank)
                      + (195 - String.length u)) at 1 by lia.
    rewrite substring_app, !PyStrFacts.app_assoc.
    apply contains_app_mid.
Qed.

(** X4. Whatever [generate_and_display_mcq] cuts off a long question, a
    question with a blank is shown with a bracketed blank. *)
Theorem display_text_keeps_blank q :
  PyStr.contains blank q = true ->
  PyStr.contains "[_____]" (display_text q) = true.
Proof.
  intros Hc. unfold display_text.
  assert (∀ t, PyStr.contains blank t = true ->
               PyStr.contains "[_____]" (PyStr.replace blank "[_____]" t)
               = true) as Hrep.
  { intros t (u & v & -> & Hu)%PyStrFacts.contains_first.
    rewrite PyStrFacts.replace_next by done. apply contains_app_mid. }
  apply Hrep.
  destruct (200 <? String.length q) eqn:Hlen; [|done].
  apply Nat.ltb_lt in Hlen. by apply truncated_has_blank.
Qed.

Lemma display_text_keeps_blank_witness :
  PyStr.contains "[_____]" (display_text long_question) = true.
Proof. apply display_text_keeps_blank. vm_compute. reflexivity. Defined.

(* ================================================================== *)
(** * More about the score store *)
(* ================================================================== *)

(** ** Decimal numerals: what [f"{n}"] writes, [int] reads *)

Lemma digit_char m :
  (m < 10)%N ->
  PyStr.is_digit (pretty_N_char m) = true
  ∧ PyStr.digit_value (pretty_N_char m) = Z.of_N m.
Proof.
  intros H.
  assert (m = 0 ∨ m = 1 ∨ m = 2 ∨ m = 3 ∨ m = 4 ∨ m = 5 ∨ m = 6 ∨ m = 7
          ∨ m = 8 ∨ m = 9)%N as Hm by lia.
  repeat (destruct Hm as [->|Hm]; [by vm_compute |]). subst. by vm_compute.
Qed.

(** What a digit is not. *)
Lemma digit_plain c :
  PyStr.is_digit c = true ->
  PyStr.is_space c = false ∧ PyStr.is_int_space c = false
  ∧ Ascii.eqb c "/" = false ∧ Ascii.eqb c "-" = false
  ∧ Ascii.eqb c "+" = false ∧ Ascii.eqb c "_" = false.
Proof.
  destruct c as [[] [] [] [] [] [] [] []]; vm_compute; intros H;
    try discriminate H; done.
Qed.

Lemma all_digits_app a b :
  all_digits (a +:+ b) = all_digits a && all_digits b.
Proof.
  induction a as [|c a IH]; [done |].
  rewrite PyStrFacts.app_cons. cbn [all_digits]. by rewrite IH, andb_assoc.
Qed.

Lemma decimal_value_app a b acc :
  decimal_value (a +:+ b) acc = decimal_value b (decimal_value a acc).
Proof.
  revert acc. induction a as [|c a IH]; intros acc; [done |].
  rewrite PyStrFacts.app_cons. cbn [decimal_value]. apply IH.
Qed.

Lemma pretty_N_go_app x s :
  pretty_N_go x s = pretty_N_go x EmptyString +:+ s.
Proof.
  revert s. induction (N.lt_wf_0 x) as [x _ IH]; intros s.
  assert (x = 0 ∨ 0 < x)%N as [->|Hx] by lia; [done |].
  assert (x `div` 10 < x)%N as Hlt by by apply N.div_lt.
  rewrite !(pretty_N_go_step x) by done.
  rewrite (IH _ Hlt (String _ s)), (IH _ Hlt (String _ EmptyString)).
  by rewrite PyStrFacts.app_assoc.
Qed.

Lemma pretty_N_go_digits x :
  all_digits (pretty_N_go x EmptyString) = true
  ∧ decimal_value (pretty_N_go x EmptyString) 0 = Z.of_N x.
Proof.
  induction (N.lt_wf_0 x) as [x _ IH].
  assert (x = 0 ∨ 0 < x)%N as [->|Hx] by lia; [done |].
  rewrite pretty_N_go_step, pretty_N_go_app by done.
  destruct (IH (x `div` 10)%N) as [Hd Hv]; [by apply N.div_lt |].
  destruct (digit_char (x `mod` 10)%N) as [Hc Hcv]; [by apply N.mod_lt |].
  rewrite all_digits_app, decimal_value_app, Hd, Hv.
  cbn [all_digits decimal_value andb]. rewrite Hc, Hcv. split; [done |].
  rewrite (N.div_mod x 10) at 3 by done. lia.
Qed.

Lemma pretty_nat_digits (n : nat) :
  all_digits (pretty n) = true
  ∧ decimal_value (pretty n) 0 = Z.of_nat n
  ∧ pretty n ≠ EmptyString.
Proof.
  unfold pretty, pretty_nat, pretty, pretty_N.
  destruct (decide (N.of_nat n = 0%N)) as [Hz|Hnz].
  - assert (n = 0) as -> by lia. done.
  - destruct (pretty_N_go_digits (N.of_nat n)) as [Hd Hv].
    split_and!; [done | rewrite Hv; lia |].
    rewrite pretty_N_go_step by lia. rewrite pretty_N_go_app.
    intros H%(f_equal String.length).
    rewrite PyStrFacts.length_app in H. cbn in H. lia.
Qed.

Lemma int_digits_all s b acc k :
  all_digits s = true -> s ≠ EmptyString ∨ b = true ->
  PyStr.int_digits s b acc k
  = Some (decimal_value s acc, k + String.length s).
Proof.
  revert b acc k. induction s as [|c r IH]; intros b acc k Hd Hb.
  - destruct Hb as [?| ->]; [done |]. cbn. do 2 f_equal. lia.
  - cbn [all_digits] in Hd. apply andb_prop in Hd as [Hc Hr].
    cbn [PyStr.int_digits decimal_value String.length]. rewrite Hc.
    rewrite IH by (done || by right). do 2 f_equal. lia.
Qed.

Lemma int_strip_digits s :
  all_digits s = true -> PyStr.int_lstrip (PyStr.int_rstrip s) = s.
Proof.
  intros Hd.
  assert (PyStr.int_rstrip s = s) as ->.
  { induction s as [|c r IH]; [done |].
    cbn [all_digits] in Hd. apply andb_prop in Hd as [Hc Hr].
    cbn [PyStr.int_rstrip]. rewrite (IH Hr).
    destruct (digit_plain c Hc) as (_ & -> & _). done. }
  destruct s as [|c r]; [done |].
  cbn [all_digits] in Hd. apply andb_prop in Hd as [Hc Hr].
  cbn [PyStr.int_lstrip]. destruct (digit_plain c Hc) as (_ & -> & _). done.
Qed.

(** [int] reads a string of digits as the number it writes. *)
Lemma int_of_digits limit s :
  all_digits s = true -> s ≠ EmptyString ->
  PyStr.within_limit limit (String.length s) = true ->
  PyStr.int limit s = Some (decimal_value s 0).
Proof.
  intros Hd Hne Hlim. unfold PyStr.int. rewrite int_strip_digits by done.
  destruct s as [|c r]; [done |].
  assert (PyStr.is_digit c = true) as Hc.
  { cbn [all_digits] in Hd. by apply andb_prop in Hd as [Hc _]. }
  assert (match String c r with
          | String "-" r' => ((-1)%Z, r')
          | String "+" r' => (1%Z, r')
          | _ => (1%Z, String c r)
          end = (1%Z, String c r)) as ->.
  { clear -Hc. destruct c as [[] [] [] [] [] [] [] []];
      try reflexivity; vm_compute in Hc; discriminate Hc. }
  rewrite int_digits_all by (done || by left).
  cbn [Nat.add]. rewrite Hlim. f_equal. lia.
Qed.

(** [int(str(n)) == n], digit limit permitting. *)
Lemma int_pretty limit (n : nat) :
  PyStr.within_limit limit (String.length (pretty n)) = true ->
  PyStr.int limit (pretty n) = Some (Z.of_nat n).
Proof.
  intros Hlim. destruct (pretty_nat_digits n) as (Hd & Hv & Hne).
  by rewrite int_of_digits, Hv.
Qed.

(** ** Cutting a record at the slash *)

Lemma split_on_first sep d rest :
  free_of sep d = true ->
  PyStr.split_on sep (d +:+ String sep rest) = d :: PyStr.split_on sep rest.
Proof.
  induction d as [|c d IH]; intros Hf.
  - change (EmptyString +:+ String sep rest) with (String sep rest).
    cbn [PyStr.split_on]. by rewrite Ascii.eqb_refl.
  - cbn [free_of] in Hf. apply andb_prop in Hf as [Hc Hd].
    rewrite PyStrFacts.app_cons. cbn [PyStr.split_on].
    apply negb_true_iff in Hc. rewrite Hc, (IH Hd). done.
Qed.

Lemma digits_free_of_slash d : all_digits d = true -> free_of "/" d = true.
Proof.
  induction d as [|c d IH]; [done |]. cbn [all_digits free_of].
  intros [Hc Hd]%andb_prop. destruct (digit_plain c Hc) as (_ & _ & -> & _).
  by rewrite IH.
Qed.

Lemma free_of_app c a b : free_of c (a +:+ b) = free_of c a && free_of c b.
Proof.
  induction a as [|x a IH]; [done |].
  rewrite PyStrFacts.app_cons. cbn [free_of]. by rewrite IH, andb_assoc.
Qed.

Lemma strip_digits_space d :
  all_digits d = true -> d ≠ EmptyString -> PyStr.strip (d +:+ " ") = d.
Proof.
  intros Hd Hne. unfold PyStr.strip.
  assert (PyStr.rstrip (d +:+ " ") = d) as ->.
  { clear Hne. induction d as [|c d IH]; [done |].
    cbn [all_digits] in Hd. apply andb_prop in Hd as [Hc Hd].
    rewrite PyStrFacts.app_cons. cbn [PyStr.rstrip]. rewrite (IH Hd).
    destruct (digit_plain c Hc) as (-> & _). done. }
  destruct d as [|c d]; [done |].
  cbn [all_digits] in Hd. apply andb_prop in Hd as [Hc _].
  cbn [PyStr.lstrip]. destruct (digit_plain c Hc) as (-> & _). done.
Qed.

Section ScoreMore.
Variable limit : nat.

(** The key of a record written as [f"{a} / {b}"]. *)
Lemma score_key_written (a b : nat) :
  PyStr.within_limit limit (String.length (pretty a)) = true ->
  score_key limit (pretty a +:+ " / " +:+ pretty b) = Some (Z.of_nat a).
Proof.
  intros Hlim. destruct (pretty_nat_digits a) as (Hd & Hv & Hne).
  unfold score_key.
  change (pretty a +:+ " / " +:+ pretty b)
    with (pretty a +:+ String " " (String "/" (" " +:+ pretty b))).
  replace (pretty a +:+ String " " (String "/" (" " +:+ pretty b)))
    with ((pretty a +:+ " ") +:+ String "/" (" " +:+ pretty b))
    by by rewrite PyStrFacts.app_assoc.
  rewrite split_on_first.
  - rewrite strip_digits_space by done. by apply int_pretty.
  - rewrite free_of_app, digits_free_of_slash by done. done.
Qed.

(** X5. The record a quiz writes reads back as its score: the number
    [get_highest_score] takes from ["{score} / {asked}"] is the score,
    provided the score has no more digits than [int] accepts. *)
Theorem record_reads_back self :
  PyStr.within_limit limit (String.length (pretty (quiz_score self))) = true ->
  score_key limit (score_record self) = Some (Z.of_nat (quiz_score self)).
Proof. apply score_key_written. Qed.
End ScoreMore.

(* ================================================================== *)
(** * More about the quiz session *)
(* ================================================================== *)

Section SessionMore.
Variable nlp : string -> option Doc.
Variable limit : nat.

(** What [end_quiz_clicked] does not touch. *)
Lemma end_quiz_keeps self :
  let self' := end_quiz_clicked limit self in
  quiz_score self' = quiz_score self
  ∧ quiz_questions_asked self' = quiz_questions_asked self
  ∧ max_questions self' = max_questions self
  ∧ extracted_text_content self' = extracted_text_content self
  ∧ random self' = random self
  ∧ quiz self' = quiz self.
Proof.
  cbv zeta. rewrite end_quiz_clicked_eq.
  destruct (0 <? quiz_questions_asked self).
  - rewrite handle_quiz_end_record by apply score_record_nonempty.
    unfold save_scores. cbn [scores_file_writable with_scores with_quiz_timer].
    by destruct (scores_file_writable self).
  - done.
Qed.

(** [generate_and_display_mcq] either ends the quiz or shows a question. *)
Lemma mcq_outcome self :
  let self' := generate_and_display_mcq nlp limit self in
  quiz_score self' = quiz_score self
  ∧ quiz_questions_asked self' = quiz_questions_asked self
  ∧ max_questions self' = max_questions self
  ∧ extracted_text_content self' = extracted_text_content self
  ∧ ((view self' = MainView ∧ quiz_timer self' = None)
     ∨ ((Z.of_nat (quiz_questions_asked self) < max_questions self)%Z
        ∧ view self' = view self
        ∧ quiz_timer self' = quiz_timer self
        ∧ scores self' = scores self
        ∧ scores_file self' = scores_file self
        ∧ quiz_submit_button_disabled (quiz self') = false
        ∧ ∃ q, (generate_quiz_question nlp (extracted_text_content self)
                  (random self)).1 = Some q
               ∧ quiz_correct_answer self' = answer q
               ∧ quiz_choices_group_controls (quiz self') = choices q
               ∧ quiz_question_label (quiz self')
                 = display_text (question q))).
Proof.
  cbv zeta. unfold generate_and_display_mcq.
  destruct (max_questions self <=? Z.of_nat (quiz_questions_asked self))%Z
    eqn:Hgoal.
  - match goal with
    | |- context [end_quiz_clicked limit ?s] =>
        destruct (end_quiz_keeps s) as (-> & -> & -> & -> & _);
        destruct (end_quiz_clicked_spec limit s) as (Hv & Ht & _)
    end.
    split_and!; try done. by left.
  - apply Z.leb_gt in Hgoal. cbv zeta.
    cbn [extracted_text_content random with_quiz].
    destruct (generate_quiz_question nlp (extracted_text_content self)
                (random self)) as [[q|] g] eqn:Hgen.
    + split_and!; try done. right. split_and!; try done. by exists q.
    + match goal with
      | |- context [end_quiz_clicked limit ?s] =>
          destruct (end_quiz_keeps s) as (-> & -> & -> & -> & _);
          destruct (end_quiz_clicked_spec limit s) as (Hv & Ht & _)
      end.
      split_and!; try done. by left.
Qed.

(** What [check_quiz_answer] does to the counters. *)
Lemma check_counts self :
  let self' := check_quiz_answer self in
  quiz_questions_asked self' = quiz_questions_asked self + 1
  ∧ quiz_score self ≤ quiz_score self' ≤ quiz_score self + 1
  ∧ view self' = view self
  ∧ max_questions self' = max_questions self
  ∧ extracted_text_content self' = extracted_text_content self
  ∧ scores self' = scores self
  ∧ scores_file self' = scores_file self
  ∧ random self' = random self
  ∧ quiz_timer self' = Some Scheduled
  ∧ quiz_submit_button_disabled (quiz self') = true.
Proof.
  cbv zeta. unfold check_quiz_answer. cbv zeta.
  destruct (decide _); cbn; split_and!; (done || lia).
Qed.

(** What [extract_text_clicked] does not touch. *)
Lemma extract_keeps self :
  let self' := extract_text_clicked limit self in
  view self' = view self ∧ quiz_timer self' = quiz_timer self
  ∧ quiz_score self' = quiz_score self
  ∧ quiz_questions_asked self' = quiz_questions_asked self
  ∧ max_questions self' = max_questions self
  ∧ quiz self' = quiz self
  ∧ scores self' = scores self.
Proof.
  cbv zeta. unfold extract_text_clicked.
  destruct (pdf_doc self) as [doc|]; [|done].
  destruct (PyStr.int limit (start_page_entry self)) as [a|]; [|done].
  destruct (PyStr.int limit (end_page_entry self)) as [b|]; [|done].
  destruct (negb _); [done |].
  by destruct (extract_text_from_pdf doc a b).
Qed.

(** What [start_quiz_clicked] does: nothing but a dialog, or a new quiz. *)
Lemma start_outcome self :
  let self' := start_quiz_clicked nlp limit self in
  with_dialog (dialog self) self' = self
  ∨ ∃ n started,
      (0 < n)%Z
      ∧ self' = generate_and_display_mcq nlp limit started
      ∧ view started = QuizView ∧ quiz_score started = 0
      ∧ quiz_questions_asked started = 0 ∧ max_questions started = n
      ∧ quiz_timer started = quiz_timer self.
Proof.
  cbv zeta. unfold start_quiz_clicked.
  destruct (String.length _ <? 200); [left; by destruct self |].
  destruct (PyStr.int limit (num_questions_entry self)) as [n|];
    [|left; by destruct self].
  destruct (n <=? 0)%Z eqn:Hn; [left; by destruct self |].
  apply Z.leb_gt in Hn. right. by eexists n, _.
Qed.

(** X6. Whatever event arrives, the score stays at or below the number of
    questions answered. *)
Theorem score_at_most_asked e self :
  quiz_score self ≤ quiz_questions_asked self ->
  quiz_score (dispatch nlp limit e self)
  ≤ quiz_questions_asked (dispatch nlp limit e self).
Proof.
  intros H. unfold dispatch.
  destruct e, (view self); try done.
  - destruct (quiz_submit_button_disabled (quiz self)); [done |].
    destruct (check_counts self) as (-> & ? & _). lia.
  - by destruct (end_quiz_keeps self) as (-> & -> & _).
  - destruct (start_quiz_button_disabled self); [done |].
    destruct (start_outcome self) as [Hsame|(n & started & _ & -> & _ & Hs & Ha & _)].
    + rewrite <- Hsame in H at 1 2. exact H.
    + destruct (mcq_outcome started) as (-> & -> & _). lia.
  - by destruct (extract_keeps self) as (_ & _ & -> & -> & _).
  - destruct (quiz_timer self) as [[]|]; try done.
    by destruct (mcq_outcome (with_quiz_timer (Some Fired) self))
      as (-> & -> & _).
  - destruct (quiz_timer self) as [[]|]; try done.
    by destruct (mcq_outcome (with_quiz_timer (Some Fired) self))
      as (-> & -> & _).
Qed.

(** A round that is not the last one brings the next question. *)
Lemma answer_round_continues value self :
  view self = QuizView ->
  quiz_submit_button_disabled (quiz self) = false ->
  (Z.of_nat (quiz_questions_asked self + 1) < max_questions self)%Z ->
  (∀ g, ∃ q g', generate_quiz_question nlp (extracted_text_content self) g
                = (Some q, g')) ->
  let self' := answer_round nlp limit value self in
  view self' = QuizView
  ∧ quiz_submit_button_disabled (quiz self') = false
  ∧ quiz_questions_asked self' = quiz_questions_asked self + 1
  ∧ quiz_score self ≤ quiz_score self' ≤ quiz_score self + 1
  ∧ max_questions self' = max_questions self
  ∧ extracted_text_content self' = extracted_text_content self
  ∧ scores self' = scores self.
Proof.
  intros Hv Hd Hlt Hgen. cbv zeta. unfold answer_round.
  set (s1 := dispatch nlp limit (SelectChoice value) self).
  assert (s1 = with_quiz
                 (with_quiz_choices_group_value (Some value) (quiz self)) self)
    as Hs1 by (unfold s1, dispatch; by rewrite Hv).
  assert (dispatch nlp limit ClickSubmit s1 = check_quiz_answer s1) as ->.
  { unfold dispatch. rewrite Hs1. cbn [view quiz with_quiz
      quiz_submit_button_disabled with_quiz_choices_group_value].
    by rewrite Hv, Hd. }
  destruct (check_counts s1)
    as (Ha & Hs & Hv1 & Hm & Ht & Hsc & _ & _ & Htimer & _).
  set (s2 := check_quiz_answer s1) in *.
  assert (dispatch nlp limit TimerElapsed s2
          = generate_and_display_mcq nlp limit
              (with_quiz_timer (Some Fired) s2)) as ->.
  { unfold dispatch. rewrite Htimer. by destruct (view s2). }
  set (s3 := with_quiz_timer (Some Fired) s2).
  assert (quiz_questions_asked s1 = quiz_questions_asked self
          ∧ quiz_score s1 = quiz_score self
          ∧ max_questions s1 = max_questions self
          ∧ extracted_text_content s1 = extracted_text_content self
          ∧ scores s1 = scores self ∧ view s1 = view self)
    as (E1 & E2 & E3 & E4 & E5 & E6) by by rewrite Hs1.
  assert (Z.of_nat (quiz_questions_asked s3) < max_questions s3)%Z as Hlt3.
  { unfold s3. cbn [quiz_questions_asked max_questions with_quiz_timer]. lia. }
  destruct (Hgen (random s3)) as (q & g' & Hq).
  assert (extracted_text_content s3 = extracted_text_content self) as Et
    by (unfold s3; cbn [extracted_text_content with_quiz_timer]; congruence).
  rewrite <- Et in Hq.
  destruct (mcq_question nlp limit s3 q g' Hlt3 Hq)
    as (Rv & Rsc & _ & Rs & Ra & Rm & _ & _ & _ & _ & Rd).
  destruct (mcq_outcome s3) as (_ & _ & _ & Rt & _).
  unfold s3 in Rv, Rsc, Rs, Ra, Rm, Rt.
  cbn [view scores quiz_score quiz_questions_asked max_questions
       extracted_text_content with_quiz_timer] in Rv, Rsc, Rs, Ra, Rm, Rt.
  fold s3 in Rv, Rsc, Rs, Ra, Rm, Rt.
  split_and!; try congruence; lia.
Qed.

(** The round that brings the count to the quiz length ends the quiz. *)
Lemma answer_round_finishes value self :
  view self = QuizView ->
  quiz_submit_button_disabled (quiz self) = false ->
  Z.of_nat (quiz_questions_asked self + 1) = max_questions self ->
  let self' := answer_round nlp limit value self in
  view self' = MainView
  ∧ quiz_questions_asked self' = quiz_questions_asked self + 1
  ∧ quiz_score self ≤ quiz_score self' ≤ quiz_score self + 1
  ∧ scores self' = scores self ++ [score_record self'].
Proof.
  intros Hv Hd Hlast. cbv zeta. unfold answer_round.
  set (s1 := dispatch nlp limit (SelectChoice value) self).
  assert (s1 = with_quiz
                 (with_quiz_choices_group_value (Some value) (quiz self)) self)
    as Hs1 by (unfold s1, dispatch; by rewrite Hv).
  assert (dispatch nlp limit ClickSubmit s1 = check_quiz_answer s1) as ->.
  { unfold dispatch. rewrite Hs1. cbn [view quiz with_quiz
      quiz_submit_button_disabled with_quiz_choices_group_value].
    by rewrite Hv, Hd. }
  destruct (check_counts s1)
    as (Ha & Hs & Hv1 & Hm & Ht & Hsc & _ & _ & Htimer & _).
  set (s2 := check_quiz_answer s1) in *.
  assert (dispatch nlp limit TimerElapsed s2
          = generate_and_display_mcq nlp limit
              (with_quiz_timer (Some Fired) s2)) as ->.
  { unfold dispatch. rewrite Htimer. by destruct (view s2). }
  set (s3 := with_quiz_timer (Some Fired) s2).
  assert (quiz_questions_asked s1 = quiz_questions_asked self
          ∧ quiz_score s1 = quiz_score self
          ∧ max_questions s1 = max_questions self
          ∧ scores s1 = scores self)
    as (E1 & E2 & E3 & E5) by by rewrite Hs1.
  assert (max_questions s3 <= Z.of_nat (quiz_questions_asked s3))%Z as Hgoal.
  { unfold s3. cbn [quiz_questions_asked max_questions with_quiz_timer]. lia. }
  destruct (mcq_goal_reached nlp limit s3 Hgoal) as [message ->].
  set (s4 := show_error_dialog message "Quiz Finished!" s3).
  destruct (end_quiz_clicked_spec limit s4) as (Rv & _ & _ & Rpos & _).
  destruct (end_quiz_keeps s4) as (Ks & Ka & _).
  assert (quiz_questions_asked s4 = quiz_questions_asked s2
          ∧ quiz_score s4 = quiz_score s2 ∧ scores s4 = scores s2)
    as (F1 & F2 & F3) by done.
  destruct Rpos as (Rsc & _); [lia |].
  assert (score_record (end_quiz_clicked limit s4) = score_record s4) as ->.
  { unfold score_record. by rewrite Ks, Ka. }
  split_and!; try congruence; lia.
Qed.

(** X9. A quiz over a text that always gives a question runs its full
    length: with as many rounds of pick, submit and wait as are left to the
    quiz length, the quiz ends on the main view with that many answers
    counted and one record, the final score over the final count,
    appended. *)
Theorem quiz_runs_to_goal values self :
  view self = QuizView ->
  quiz_submit_button_disabled (quiz self) = false ->
  (∀ g, ∃ q g', generate_quiz_question nlp (extracted_text_content self) g
                = (Some q, g')) ->
  values ≠ [] ->
  Z.of_nat (quiz_questions_asked self + length values) = max_questions self ->
  let final := foldl (fun s v => answer_round nlp limit v s) self values in
  view final = MainView
  ∧ quiz_questions_asked final = quiz_questions_asked self + length values
  ∧ quiz_score self ≤ quiz_score final ≤ quiz_score self + length values
  ∧ scores final = scores self ++ [score_record final].
Proof.
  revert self. induction values as [|v vs IH]; intros self Hv Hd Hgen Hne Hlen;
    [done |].
  cbv zeta. cbn [foldl length] in *.
  destruct vs as [|v' vs'].
  - cbn [foldl length] in *.
    destruct (answer_round_finishes v self Hv Hd) as (? & ? & ? & ?); [lia |].
    split_and!; try done; lia.
  - destruct (answer_round_continues v self Hv Hd) as (Rv & Rd & Ra & Rs & Rm & Rt & Rsc);
      [cbn [length] in Hlen; lia | done |].
    set (next := answer_round nlp limit v self) in *.
    destruct (IH next) as (Fv & Fa & Fs & Fsc); try done.
    + by rewrite Rt.
    + rewrite Ra, Rm. cbn [length] in *. lia.
    + cbv zeta in IH. cbn [length] in *.
      split_and!; [done | lia | lia | lia |].
      by rewrite Fsc, Rsc.
Qed.

(** X7. Short of the goal a quiz stays open: after rounds of pick,
    submit and wait that leave the count below the quiz length, the quiz
    view is still on display with the submit button enabled, that many
    more answers are counted and no record has been written. *)
Theorem quiz_stays_open_before_goal values self :
  view self = QuizView ->
  quiz_submit_button_disabled (quiz self) = false ->
  (∀ g, ∃ q g', generate_quiz_question nlp (extracted_text_content self) g
                = (Some q, g')) ->
  (Z.of_nat (quiz_questions_asked self + length values)
   < max_questions self)%Z ->
  let later := foldl (fun s v => answer_round nlp limit v s) self values in
  view later = QuizView
  ∧ quiz_submit_button_disabled (quiz later) = false
  ∧ quiz_questions_asked later = quiz_questions_asked self + length values
  ∧ quiz_score self ≤ quiz_score later ≤ quiz_score self + length values
  ∧ scores later = scores self.
Proof.
  revert self. induction values as [|v vs IH]; intros self Hv Hd Hgen Hlen.
  { cbv zeta. cbn [foldl length]. split_and!; (done || lia). }
  cbv zeta. cbn [foldl length] in *.
  destruct (answer_round_continues v self Hv Hd)
    as (Rv & Rd & Ra & Rs & Rm & Rt & Rsc); [lia | done |].
  set (next := answer_round nlp limit v self) in *.
  destruct (IH next) as (Fv & Fd & Fa & Fs & Fsc); try done.
  - by rewrite Rt.
  - rewrite Ra, Rm. lia.
  - cbv zeta in IH. split_and!; [done | done | lia | lia | lia |].
    by rewrite Fsc, Rsc.
Qed.

(** X8. Ending a quiz does not reset its counters: [end_quiz_clicked]
    leaves the score and the count of answers as they are, so that called
    once more it appends the same record once more. *)
Theorem ending_again_appends_again self :
  0 < quiz_questions_asked self ->
  let once := end_quiz_clicked limit self in
  quiz_score once = quiz_score self
  ∧ quiz_questions_asked once = quiz_questions_asked self
  ∧ scores once = scores self ++ [score_record self]
  ∧ scores (end_quiz_clicked limit once)
    = scores self ++ [score_record self; score_record self].
Proof.
  intros Hasked. cbv zeta.
  destruct (end_quiz_keeps self) as (Ks & Ka & _).
  destruct (end_quiz_clicked_spec limit self) as (_ & _ & _ & Hpos & _).
  destruct (Hpos Hasked) as (Hsc & _).
  destruct (end_quiz_clicked_spec limit (end_quiz_clicked limit self))
    as (_ & _ & _ & Hpos2 & _).
  destruct Hpos2 as (Hsc2 & _); [lia |].
  assert (score_record (end_quiz_clicked limit self) = score_record self)
    as Hrec by (unfold score_record; by rewrite Ks, Ka).
  split_and!; [done | done | done |].
  rewrite Hsc2, Hsc, Hrec. by rewrite <- app_assoc.
Qed.

(** X10. The list of recent scores shows at most ten records, the newest
    first: item [i] is the record [i] places from the end of the store. *)
Theorem recent_scores_newest_first self :
  let shown := score_list_view (update_score_display limit self) in
  length shown = length (scores self) `min` 10
  ∧ ∀ i, i < length shown ->
         shown !! i = scores self !! (length (scores self) - 1 - i).
Proof.
  cbv zeta. unfold update_score_display. cbv zeta.
  cbn [score_list_view with_score_list_view scores with_highest_score_label].
  rewrite length_reverse, length_drop. split; [lia |].
  intros i Hi. rewrite reverse_lookup by (rewrite length_drop; lia).
  rewrite length_drop, lookup_drop. f_equal. lia.
Qed.

(** X11. When a quiz with at least one answer ends, its record is the
    first item of the recent list and the label shows the highest score of
    the new store; if every record stored before could be read, and the
    score has no more digits than [int] accepts, every record can be read
    after, and the highest score shown is the first record with the
    largest number of correct answers. *)
Theorem finished_quiz_on_display self :
  0 < quiz_questions_asked self ->
  let self' := end_quiz_clicked limit self in
  score_list_view self' !! 0 = Some (score_record self)
  ∧ highest_score_label self'
    = "Highest Score: " +:+ get_highest_score limit self'
  ∧ (readable limit (scores self) ->
     PyStr.within_limit limit (String.length (pretty (quiz_score self)))
     = true ->
     readable limit (scores self')
     ∧ first_max (score_key limit) (scores self')
         (get_highest_score limit self')).
Proof.
  intros Hasked. cbv zeta.
  destruct (end_quiz_clicked_spec limit self) as (_ & _ & _ & Hpos & _).
  destruct (Hpos Hasked) as (Hsc & _).
  rewrite end_quiz_clicked_eq in *.
  rewrite (proj2 (Nat.ltb_lt _ _) Hasked) in *.
  rewrite handle_quiz_end_record in * by apply score_record_nonempty.
  set (stored := save_scores
                   (with_scores (scores (with_quiz_timer None self)
                                 ++ [score_record self])
                      (with_quiz_timer None self))) in *.
  assert (scores stored = scores self ++ [score_record self]) as Hst.
  { unfold stored, save_scores. by destruct (scores_file_writable _). }
  split_and!.
  - destruct (recent_scores_newest_first stored) as [Hlen Hitem].
    cbn [score_list_view build_main_view with_view].
    rewrite Hitem.
    + rewrite Hst, length_app. cbn [length].
      replace (length (scores self) + 1 - 1 - 0) with (length (scores self))
        by lia.
      by rewrite list_lookup_middle.
    + rewrite Hlen, Hst, length_app. cbn [length]. lia.
  - cbn [highest_score_label build_main_view with_view update_score_display
         with_score_list_view with_highest_score_label].
    reflexivity.
  - intros Hread Hlim.
    assert (readable limit (scores self ++ [score_record self])) as Hall.
    { intros r [Hr| ->%list_elem_of_singleton]%elem_of_app; [by apply Hread |].
      unfold score_record. by rewrite score_key_written. }
    rewrite Hsc. split; [done |].
    destruct (max_by_first_max (score_key limit)
                (scores self ++ [score_record self])) as (r & Hr & Hmax);
      [by destruct (scores self) | done |].
    replace (get_highest_score limit _) with r; [done |].
    unfold get_highest_score. cbn [scores build_main_view with_view
      update_score_display with_score_list_view with_highest_score_label].
    rewrite Hst, Hr. by destruct (scores self).
Qed.
End SessionMore.

(* ================================================================== *)
(** * More about text extraction *)
(* ================================================================== *)

Lemma concat_cons x xs :
  String.concat EmptyString (x :: xs) = x +:+ String.concat EmptyString xs.
Proof. destruct xs; [by rewrite PyStrFacts.app_empty_r | done]. Qed.

Lemma concat_app xs ys :
  String.concat EmptyString (xs ++ ys)
  = String.concat EmptyString xs +:+ String.concat EmptyString ys.
Proof.
  induction xs as [|x xs IH]; [done |].
  change ((x :: xs) ++ ys) with (x :: (xs ++ ys)).
  by rewrite !concat_cons, IH, PyStrFacts.app_assoc.
Qed.

Lemma is_empty_strip s : PyStr.is_empty (PyStr.strip s) = all_space s.
Proof.
  destruct (all_space s) eqn:Hs.
  - apply strip_empty_iff in Hs. by rewrite Hs.
  - apply PyStrFacts.is_empty_false. intros H%strip_empty_iff. congruence.
Qed.

Section ExtractMore.
Variable limit : nat.

(** X12. A range that starts at page 1 or later and reaches past the
    last page makes [extract_text_from_pdf] raise its [RuntimeError],
    "Failed to extract text from PDF: " followed by the cause; it returns
    no text. *)
Theorem extract_past_last_page doc start_page end_page :
  (1 <= start_page)%Z -> (start_page <= end_page)%Z ->
  (Z.of_nat (page_count doc) < end_page)%Z ->
  ∃ cause,
    extract_text_from_pdf doc start_page end_page
    = inl ("Failed to extract text from PDF: " +:+ cause).
Proof.
  intros Hone Hse Hend. unfold extract_text_from_pdf.
  rewrite (mapM_None_2 _ (seqZ _ _)); [by eexists |].
  apply Exists_exists.
  exists (Z.max start_page (Z.of_nat (page_count doc) + 1)). split.
  - apply elem_of_seqZ. lia.
  - unfold getitem.
    by rewrite (proj2 (Z.leb_le _ _)) by lia.
Qed.

Lemma pages_text_adjacent doc a b c :
  (1 <= a)%Z -> (a <= b)%Z -> (b < c)%Z ->
  pages_text doc a c = pages_text doc a b +:+ pages_text doc (b + 1) c.
Proof.
  intros Ha Hab Hbc. unfold pages_text. rewrite <- concat_app. f_equal.
  replace (Z.to_nat (b + 1 - 1)) with (Z.to_nat (a - 1) + Z.to_nat (b - a + 1))
    by lia.
  rewrite <- (drop_drop (page_texts doc) (Z.to_nat (b - a + 1))).
  rewrite take_take_drop. f_equal. lia.
Qed.

(** X13. Extracting two adjoining page ranges one after the other gives,
    joined, what extracting the whole range at once gives. *)
Theorem extract_adjacent_ranges doc a b c :
  (1 <= a)%Z -> (a <= b)%Z -> (b < c)%Z ->
  (c <= Z.of_nat (page_count doc))%Z ->
  ∃ first second,
    extract_text_from_pdf doc a b = inr first
    ∧ extract_text_from_pdf doc (b + 1) c = inr second
    ∧ extract_text_from_pdf doc a c = inr (first +:+ second).
Proof.
  intros Ha Hab Hbc Hc.
  exists (pages_text doc a b), (pages_text doc (b + 1) c).
  rewrite !extract_valid by lia. by rewrite (pages_text_adjacent doc a b c).
Qed.

Lemma int_one : PyStr.int limit "1" = Some 1%Z.
Proof. cbv -[PyStr.within_limit]. by rewrite within_limit_1. Qed.

(** X15. With the page entries as [load_from_path_clicked] fills them
    in, ["1"] and the page count, [extract_text_clicked] takes the whole
    document: the extracted text is all page texts joined, and the start
    button is disabled exactly when that text is whitespace only. *)
Theorem default_range_extracts_all self doc :
  pdf_doc self = Some doc -> 0 < page_count doc ->
  start_page_entry self = "1" ->
  end_page_entry self = pretty (page_count doc) ->
  PyStr.within_limit limit (String.length (pretty (page_count doc))) = true ->
  let self' := extract_text_clicked limit self in
  let full_text := String.concat EmptyString (page_texts doc) in
  extracted_text_content self' = full_text
  ∧ output_text_area self' = full_text
  ∧ start_quiz_button_disabled self' = all_space full_text
  ∧ dialog self' = dialog self.
Proof.
  intros Hdoc Hpages Hs He Hlim. cbv zeta. unfold extract_text_clicked.
  rewrite Hdoc, Hs, He, int_one, int_pretty by done.
  rewrite (proj2 (Z.leb_le 1 1)), (proj2 (Z.leb_le 1 _)), Z.leb_refl by lia.
  cbn [andb negb]. rewrite extract_valid by lia.
  assert (pages_text doc 1 (Z.of_nat (page_count doc))
          = String.concat EmptyString (page_texts doc)) as ->.
  { unfold pages_text. cbn [Z.sub Z.to_nat Z.opp Z.add Z.pos_sub drop].
    f_equal. apply take_ge. unfold page_count. lia. }
  cbn [extracted_text_content output_text_area start_quiz_button_disabled
       dialog with_start_quiz_button_disabled with_extracted_text_content
       with_output_text_area_disabled with_output_text_area].
  by rewrite negb_involutive, is_empty_strip.
Qed.
End ExtractMore.

(* ================================================================== *)
(** * The further theorems at work *)
(* ================================================================== *)

Lemma curie_always_generates g :
  ∃ q g', generate_quiz_question (nlp_of curie_doc) long_text g = (Some q, g').
Proof.
  apply (generate_from_pool (nlp_of curie_doc) long_text curie_doc curie_pool).
  - vm_compute. discriminate.
  - reflexivity.
  - vm_compute. reflexivity.
Qed.

Lemma generation_succeeds_iff_witness :
  ∃ q g', generate_quiz_question (nlp_of curie_doc) curie_text rng0
          = (Some q, g').
Proof.
  apply (generation_succeeds_iff (nlp_of curie_doc) curie_text rng0).
  split; [vm_compute; reflexivity |].
  exists curie_doc. split; [reflexivity |]. left. vm_compute. lia.
Defined.

Lemma choices_have_two_characters_witness : 2 ≤ String.length "1903".
Proof.
  apply (choices_have_two_characters (nlp_of curie_doc) curie_text rng0
           curie_question rng7).
  - vm_compute. reflexivity.
  - apply list_elem_of_In. simpl. tauto.
Defined.

Lemma prompt_has_blank_witness :
  PyStr.contains blank (question curie_question) = true.
Proof.
  apply (prompt_has_blank (nlp_of curie_doc) curie_text rng0
           curie_question rng7).
  vm_compute. reflexivity.
Defined.

Lemma record_reads_back_witness :
  score_key default_max_str_digits (score_record answered) = Some 1%Z.
Proof.
  apply (record_reads_back default_max_str_digits answered).
  vm_compute. reflexivity.
Defined.

Lemma score_at_most_asked_witness :
  quiz_score (dispatch (nlp_of curie_doc) default_max_str_digits
                ClickSubmit pending)
  ≤ quiz_questions_asked
      (dispatch (nlp_of curie_doc) default_max_str_digits ClickSubmit pending).
Proof.
  apply (score_at_most_asked (nlp_of curie_doc) default_max_str_digits
           ClickSubmit pending).
  vm_compute. lia.
Defined.

Lemma quiz_stays_open_before_goal_witness :
  let later :=
    foldl (fun s v =>
             answer_round (nlp_of curie_doc) default_max_str_digits v s)
      pending ["Paris"; "1903"] in
  view later = QuizView
  ∧ quiz_submit_button_disabled (quiz later) = false
  ∧ quiz_questions_asked later = quiz_questions_asked pending + 2
  ∧ quiz_score pending ≤ quiz_score later ≤ quiz_score pending + 2
  ∧ scores later = scores pending.
Proof.
  assert (extracted_text_content pending = long_text) as Htext
    by (vm_compute; reflexivity).
  apply (quiz_stays_open_before_goal (nlp_of curie_doc)
           default_max_str_digits ["Paris"; "1903"] pending).
  - vm_compute. reflexivity.
  - vm_compute. reflexivity.
  - intros g. rewrite Htext. apply curie_always_generates.
  - vm_compute. reflexivity.
Defined.

Lemma ending_again_appends_again_witness :
  let once := end_quiz_clicked default_max_str_digits answered in
  quiz_score once = quiz_score answered
  ∧ quiz_questions_asked once = quiz_questions_asked answered
  ∧ scores once = scores answered ++ [score_record answered]
  ∧ scores (end_quiz_clicked default_max_str_digits once)
    = scores answered ++ [score_record answered; score_record answered].
Proof.
  apply (ending_again_appends_again default_max_str_digits answered).
  vm_compute. lia.
Defined.

Lemma extract_past_last_page_witness :
  ∃ cause,
    extract_text_from_pdf two_pages 2 3
    = inl ("Failed to extract text from PDF: " +:+ cause).
Proof. apply extract_past_last_page; cbn; lia. Defined.

Lemma quiz_runs_to_goal_witness :
  let final :=
    foldl (fun s v =>
             answer_round (nlp_of curie_doc) default_max_str_digits v s)
      pending five_answers in
  view final = MainView
  ∧ quiz_questions_asked final = quiz_questions_asked pending + 5
  ∧ quiz_score pending ≤ quiz_score final ≤ quiz_score pending + 5
  ∧ scores final = scores pending ++ [score_record final].
Proof.
  assert (extracted_text_content pending = long_text) as Htext
    by (vm_compute; reflexivity).
  apply (quiz_runs_to_goal (nlp_of curie_doc) default_max_str_digits
           five_answers pending).
  - vm_compute. reflexivity.
  - vm_compute. reflexivity.
  - intros g. rewrite Htext. apply curie_always_generates.
  - discriminate.
  - vm_compute. reflexivity.
Defined.

Lemma finished_quiz_on_display_witness :
  let ended := end_quiz_clicked default_max_str_digits answered in
  score_list_view ended !! 0 = Some (score_record answered)
  ∧ highest_score_label ended
    = "Highest Score: " +:+ get_highest_score default_max_str_digits ended
  ∧ first_max (score_key default_max_str_digits) (scores ended)
      (get_highest_score default_max_str_digits ended).
Proof.
  destruct (finished_quiz_on_display default_max_str_digits answered)
    as (Hfirst & Hlabel & Hread).
  { vm_compute. lia. }
  assert (scores answered = []) as Hnone by (vm_compute; reflexivity).
  destruct Hread as [_ Hmax].
  { intros r Hr. rewrite Hnone in Hr. inversion Hr. }
  { vm_compute. reflexivity. }
  split_and!; [exact Hfirst | exact Hlabel | exact Hmax].
Defined.

Lemma extract_adjacent_ranges_witness :
  ∃ first second,
    extract_text_from_pdf two_pages 1 1 = inr first
    ∧ extract_text_from_pdf two_pages (1 + 1) 2 = inr second
    ∧ extract_text_from_pdf two_pages 1 2 = inr (first +:+ second).
Proof. apply extract_adjacent_ranges; cbn; lia. Defined.

Lemma default_range_extracts_all_witness :
  let after :=
    extract_text_clicked default_max_str_digits (entries "1" "2" ready) in
  extracted_text_content after = "alpha beta"
  ∧ output_text_area after = "alpha beta"
  ∧ start_quiz_button_disabled after = false
  ∧ dialog after = dialog (entries "1" "2" ready).
Proof.
  apply (default_range_extracts_all default_max_str_digits
           (entries "1" "2" ready) two_pages).
  - reflexivity.
  - cbn. lia.
  - reflexivity.
  - reflexivity.
  - vm_compute. reflexivity.
Defined.
